(** * CallbackTimer: a polling software timer with one callback slot

    Shallow embedding of [src/CallbackTimer.cpp] and of the inline members of
    [CallbackTimer.h] (class [Timer]), followed by the properties of the
    polling state machine.

    Modelling conventions.
    - [unsigned long] is a 32-bit unsigned integer: a [Z] in [0, 2^32), with
      the wrap-around of the subtraction in [getEllapsed] written out.
    - [int] is a [Z]; the decrement [_repetitionCount--] wraps as a 16-bit
      two's complement integer ([int] on the AVR boards).  Every statement
      below that mentions a decrement keeps the counter away from [INT_MIN],
      where the result is the same for every width of [int].
    - a function pointer [void (star)()] is [option Task]: [None] is
      [nullptr], [Some f] the address of the function [f].  Calling [f] is
      recorded in a trace; calling [nullptr] is a fault that ends the run.
      Callbacks are opaque: they do not touch the timer themselves.
    - [millis()] is the external time source.  Every member function reads it
      zero or more times; a [Clock] gives the successive readings observed
      during one call, in order.  [at_time t] is the clock of a call that
      completes within the millisecond [t]. *)

From Stdlib Require Import ZArith List Bool Lia.
Import ListNotations.
Open Scope Z_scope.

(** ** Machine integers *)

Definition ULONG_MOD : Z := 2 ^ 32.

Definition wrapUL (z : Z) : Z := z mod ULONG_MOD.

Definition INT_MIN : Z := -32768.
Definition INT_MAX : Z := 32767.

Definition wrap_int (z : Z) : Z := (z + 32768) mod 65536 - 32768.

(** [x--] on an [int]. *)
Definition int_dec (x : Z) : Z := wrap_int (x - 1).

(** ** Data *)

Definition Task := nat.
Definition FnPtr := option Task.

(** The private members of [class Timer], in declaration order. *)
Record Timer : Type := mkTimer {
  _repeatMode : bool;
  _repetitionCount : Z;
  _time : Z;
  _last : Z;
  _done : bool;
  _started : bool;
  _execOnce : bool;
  _callback : FnPtr
}.

(** [Timer(unsigned long duration) : _time(duration) {}] on an object with
    static storage: the other members are zero-initialised. *)
Definition Timer_new (duration : Z) : Timer :=
  mkTimer false 0 duration 0 false false false None.

(** [Timer() : _time(1000) {}] *)
Definition Timer_default : Timer := Timer_new 1000.

Definition with_repeatMode (v : bool) (t : Timer) : Timer :=
  mkTimer v (_repetitionCount t) (_time t) (_last t) (_done t) (_started t)
          (_execOnce t) (_callback t).
Definition with_repetitionCount (v : Z) (t : Timer) : Timer :=
  mkTimer (_repeatMode t) v (_time t) (_last t) (_done t) (_started t)
          (_execOnce t) (_callback t).
Definition with_time (v : Z) (t : Timer) : Timer :=
  mkTimer (_repeatMode t) (_repetitionCount t) v (_last t) (_done t)
          (_started t) (_execOnce t) (_callback t).
Definition with_last (v : Z) (t : Timer) : Timer :=
  mkTimer (_repeatMode t) (_repetitionCount t) (_time t) v (_done t)
          (_started t) (_execOnce t) (_callback t).
Definition with_done (v : bool) (t : Timer) : Timer :=
  mkTimer (_repeatMode t) (_repetitionCount t) (_time t) (_last t) v
          (_started t) (_execOnce t) (_callback t).
Definition with_started (v : bool) (t : Timer) : Timer :=
  mkTimer (_repeatMode t) (_repetitionCount t) (_time t) (_last t) (_done t)
          v (_execOnce t) (_callback t).
Definition with_execOnce (v : bool) (t : Timer) : Timer :=
  mkTimer (_repeatMode t) (_repetitionCount t) (_time t) (_last t) (_done t)
          (_started t) v (_callback t).
Definition with_callback (v : FnPtr) (t : Timer) : Timer :=
  mkTimer (_repeatMode t) (_repetitionCount t) (_time t) (_last t) (_done t)
          (_started t) (_execOnce t) v.

(** ** The monad of a member-function call

    The state threaded through one call: the object, the number of
    [millis()] readings taken so far in this call, and the callbacks invoked
    so far (oldest first). *)

Definition Clock := nat -> Z.

Definition at_time (t : Z) : Clock := fun _ => t.

Record Env : Type := mkEnv {
  tm : Timer;
  reads : nat;
  trace : list Task
}.

Inductive Res (A : Type) : Type :=
| Ok (a : A) (e : Env)
| NullCall (e : Env).
Arguments Ok {A} a e.
Arguments NullCall {A} e.

Definition M (A : Type) : Type := Env -> Res A.

Definition ret {A} (a : A) : M A := fun e => Ok a e.

Definition bind {A B} (m : M A) (f : A -> M B) : M B :=
  fun e => match m e with
           | Ok a e' => f a e'
           | NullCall e' => NullCall e'
           end.

Declare Scope timer_scope.
Delimit Scope timer_scope with timer.
Notation "x <- m ;; k" := (bind m (fun x => k))
  (at level 61, m at next level, right associativity) : timer_scope.
Notation "m ;; k" := (bind m (fun _ => k))
  (at level 61, right associativity) : timer_scope.
Open Scope timer_scope.

Definition get : M Timer := fun e => Ok (tm e) e.

Definition modify (f : Timer -> Timer) : M unit :=
  fun e => Ok tt (mkEnv (f (tm e)) (reads e) (trace e)).

(** Calling through a function pointer. *)
Definition invoke (p : FnPtr) : M unit :=
  fun e => match p with
           | Some f => Ok tt (mkEnv (tm e) (reads e) (trace e ++ [f]))
           | None => NullCall e
           end.

Section Members.

Variable clk : Clock.

(** [millis()]: the next reading of the time source, as an
    [unsigned long]. *)
Definition millis : M Z :=
  fun e => Ok (wrapUL (clk (reads e))) (mkEnv (tm e) (S (reads e)) (trace e)).

(** [inline bool hasStarted() { return _started; }] *)
Definition hasStarted : M bool :=
  t <- get ;; ret (_started t).

(** [inline unsigned long getEllapsed() { return millis() - _last; }] *)
Definition getEllapsed : M Z :=
  now <- millis ;;
  t <- get ;;
  ret (wrapUL (now - _last t)).

(** [Timer::isDone] *)
Definition isDone : M bool :=
  s <- hasStarted ;;
  if s then
    el <- getEllapsed ;;
    t <- get ;;
    if _time t <=? el then
      modify (with_done true) ;; ret true
    else ret false
  else ret false.

(** [inline bool isRunning() { return (hasStarted() && !isDone()); }] *)
Definition isRunning : M bool :=
  s <- hasStarted ;;
  if s then d <- isDone ;; ret (negb d) else ret false.

(** [Timer::set] *)
Definition set (duration : Z) : M unit :=
  modify (with_time duration).

(** [Timer::start] *)
Definition start : M unit :=
  now <- millis ;;
  modify (with_last now) ;;
  modify (with_done false) ;;
  modify (with_started true).

(** [Timer::stop] *)
Definition stop : M Z :=
  d <- isDone ;;
  modify (with_done d) ;;
  r <- isRunning ;;
  (if r then now <- millis ;; modify (with_last now) else ret tt) ;;
  modify (with_started false) ;;
  getEllapsed.

(** [Timer::reset] *)
Definition reset : M unit :=
  stop ;;
  d <- isDone ;;
  modify (with_done d) ;;
  now <- millis ;;
  modify (with_last now) ;;
  modify (with_repetitionCount 0) ;;
  modify (with_callback None).

(** [bool Timer::setTimeout(void (star task)())] *)
Definition setTimeout_task (task : FnPtr) : M bool :=
  r <- isRunning ;;
  if r then ret false
  else
    modify (with_callback task) ;;
    modify (with_repeatMode false) ;;
    start ;;
    ret true.

(** [bool Timer::setTimeout(unsigned long delayPeriod, void (star task)())] *)
Definition setTimeout (delayPeriod : Z) (task : FnPtr) : M bool :=
  r <- isRunning ;;
  if r then ret false
  else
    set delayPeriod ;;
    setTimeout_task task.

(** [bool Timer::setInterval(unsigned long period, int times, void (star task)())] *)
Definition setInterval (period : Z) (times : Z) (task : FnPtr) : M bool :=
  r <- isRunning ;;
  b <- (if r then ret true else t <- get ;; ret (_execOnce t)) ;;
  if b then ret false
  else
    reset ;;
    modify (with_callback task) ;;
    set period ;;
    modify (with_repetitionCount times) ;;
    modify (with_repeatMode true) ;;
    start ;;
    ret true.

(** [bool Timer::setInterval(unsigned long period, void (star task)())] *)
Definition setInterval_forever (period : Z) (task : FnPtr) : M bool :=
  setInterval period (-1) task.

(** [Timer::tick] *)
Definition tick : M unit :=
  t0 <- get ;;
  (if _repeatMode t0 && negb (_execOnce t0) then
     modify (with_execOnce true) ;;
     modify (fun t => with_repetitionCount (int_dec (_repetitionCount t)) t) ;;
     t1 <- get ;;
     invoke (_callback t1)
   else ret tt) ;;
  d <- isDone ;;
  if negb d then ret tt
  else
    t2 <- get ;;
    match _callback t2 with
    | None => ret tt
    | Some _ =>
        if negb (_repeatMode t2) then
          invoke (_callback t2) ;;
          reset
        else if negb (_repetitionCount t2 =? 0) then
          invoke (_callback t2) ;;
          modify (fun t => with_repetitionCount (int_dec (_repetitionCount t)) t) ;;
          start
        else
          let t := _repetitionCount t2 in
          reset ;;
          modify (with_repetitionCount t)
    end.

End Members.

(** ** Calls from the embedding sketch

    What the sketch sees of a timer: the object and the callbacks it has
    invoked so far.  A call runs a member function against the readings of
    the time source observed during that call. *)

Record Sys : Type := mkSys {
  timer : Timer;
  fired : list Task
}.

Inductive Outcome (A : Type) : Type :=
| Returned (a : A) (s : Sys)
| Crashed (s : Sys).
Arguments Returned {A} a s.
Arguments Crashed {A} s.

Definition call {A} (m : Clock -> M A) (clk : Clock) (s : Sys) : Outcome A :=
  match m clk (mkEnv (timer s) 0 (fired s)) with
  | Ok a e => Returned a (mkSys (tm e) (trace e))
  | NullCall e => Crashed (mkSys (tm e) (trace e))
  end.

(** A timer object on which nothing has been called yet. *)
Definition fresh (duration : Z) : Sys := mkSys (Timer_new duration) [].

(** The loop of the sketch: one [tick()] per iteration, each iteration with
    its own readings of the time source.  A fault ends the loop. *)
Fixpoint poll_each (cs : list Clock) (s : Sys) : Outcome unit :=
  match cs with
  | [] => Returned tt s
  | c :: cs' =>
      match call tick c s with
      | Returned _ s' => poll_each cs' s'
      | Crashed s' => Crashed s'
      end
  end.

(** Iterations that each complete within one millisecond. *)
Definition poll_at (ts : list Z) (s : Sys) : Outcome unit :=
  poll_each (map at_time ts) s.

(** How often the function [f] has been invoked. *)
Definition invocations (f : Task) (s : Sys) : nat :=
  count_occ Nat.eq_dec (fired s) f.

(** ** Snapshots

    What the timer reports when the time source reads [now]. *)

Definition elapsed_at (now : Z) (t : Timer) : Z :=
  wrapUL (wrapUL now - _last t).

Definition done_at (now : Z) (t : Timer) : bool :=
  _started t && (_time t <=? elapsed_at now t).

Definition running_at (now : Z) (t : Timer) : bool :=
  _started t && negb (_time t <=? elapsed_at now t).

(** ** States of a schedule

    The timer between a successful [setTimeout] at time [la] and the poll
    that fires it, and the timer after that poll. *)
Definition oneshot_armed (delay : Z) (f : Task) (la : Z) : Timer :=
  mkTimer false 0 delay la false true false (Some f).

Definition oneshot_idle (delay : Z) (la : Z) : Timer :=
  mkTimer false 0 delay la false false false None.

(** The timer after a successful [setInterval(period, n, f)] on a timer
    whose first-fire flag is clear; the timer during the sequence, with [c]
    repetitions left and the current period started at [la]; the timer after
    the sequence. *)
Definition repeat_armed (period : Z) (f : Task) (n : Z) (la : Z) : Timer :=
  mkTimer true n period la false true false (Some f).

Definition repeat_cycling (period : Z) (f : Task) (c : Z) (la : Z) : Timer :=
  mkTimer true c period la false true true (Some f).

Definition repeat_finished (period : Z) (la : Z) : Timer :=
  mkTimer true 0 period la false false true None.

(** ** Polling schedules

    The sketch polls at the instants [ts].  A period that started at [la] is
    crossed by the first poll at least [period] milliseconds later; the next
    period starts at that poll.  [periods_crossed] counts the full periods
    crossed by the polls, [restart_time] is the start of the period that is
    open after the last poll. *)
Fixpoint periods_crossed (period la : Z) (ts : list Z) : nat :=
  match ts with
  | [] => O
  | t :: ts' =>
      if period <=? t - la then S (periods_crossed period t ts')
      else periods_crossed period la ts'
  end.

Fixpoint restart_time (period la : Z) (ts : list Z) : Z :=
  match ts with
  | [] => la
  | t :: ts' =>
      if period <=? t - la then restart_time period t ts'
      else restart_time period la ts'
  end.

(** The instants [ts] never go back, and none is before [lo]. *)
Fixpoint nondecreasing_from (lo : Z) (ts : list Z) : Prop :=
  match ts with
  | [] => True
  | t :: ts' => lo <= t /\ nondecreasing_from t ts'
  end.

(** The instants [lo, lo + 1, ..., lo + n - 1]: a poll in every
    millisecond. *)
Fixpoint every_ms (lo : Z) (n : nat) : list Z :=
  match n with
  | O => []
  | S n' => lo :: every_ms (lo + 1) n'
  end.

(** A time source that advances by one millisecond between the second and
    the third reading of a call. *)
Definition clock_50_51 : Clock := fun n => if (n <? 2)%nat then 50 else 51.

(** ** Sample runs

    A timer that is running at time 50: a one-shot armed at time 0 for 100
    milliseconds. *)
Definition sample_running : Sys :=
  mkSys (oneshot_armed 100 7%nat 0) [].

(** [setInterval(100, 3, f)] at time 0 on a new timer, and that timer after
    the polls at 0, 100, 200 and 300, and after a [reset()] at 500. *)
Definition sample_armed : Sys :=
  mkSys (repeat_armed 100 7%nat 3 0) [].

Definition sample_completed : Sys :=
  mkSys (repeat_finished 100 300) [7%nat; 7%nat; 7%nat].

Definition sample_completed_reset : Sys :=
  mkSys (repeat_finished 100 500) [7%nat; 7%nat; 7%nat].

(** [sample_armed] after a [reset()] at time 5, before any poll, and where
    the [tick()] that follows stops. *)
Definition sample_reset_unpolled : Sys :=
  mkSys (mkTimer true 0 100 5 false false false None) [].

Definition sample_fault : Sys :=
  mkSys (mkTimer true (-1) 100 5 false false true None) [].

(** ** The remaining members and the sketch as a sequence of calls *)

(** [inline int getPreset() { return _time; }]: the [unsigned long] member
    converted to [int]. *)
Definition getPreset : M Z :=
  t <- get ;; ret (wrap_int (_time t)).

(** One statement of the sketch on the timer object.  The value a member
    function returns is dropped here; the statements that follow see the
    object and the callbacks invoked. *)
Inductive Op : Type :=
| OSet (duration : Z)
| OSetTimeout (delayPeriod : Z) (task : FnPtr)
| OSetTimeoutTask (task : FnPtr)
| OSetInterval (period times : Z) (task : FnPtr)
| OSetIntervalForever (period : Z) (task : FnPtr)
| OTick
| OStart
| OStop
| OReset
| OIsDone
| OIsRunning
| OGetEllapsed
| OGetPreset
| OHasStarted.

Definition forget {A} (o : Outcome A) : Outcome unit :=
  match o with
  | Returned _ s => Returned tt s
  | Crashed s => Crashed s
  end.

Definition perform (op : Op) (clk : Clock) (s : Sys) : Outcome unit :=
  match op with
  | OSet d => forget (call (fun _ => set d) clk s)
  | OSetTimeout d task => forget (call (fun c => setTimeout c d task) clk s)
  | OSetTimeoutTask task => forget (call (fun c => setTimeout_task c task) clk s)
  | OSetInterval p n task => forget (call (fun c => setInterval c p n task) clk s)
  | OSetIntervalForever p task =>
      forget (call (fun c => setInterval_forever c p task) clk s)
  | OTick => forget (call tick clk s)
  | OStart => forget (call start clk s)
  | OStop => forget (call stop clk s)
  | OReset => forget (call reset clk s)
  | OIsDone => forget (call isDone clk s)
  | OIsRunning => forget (call isRunning clk s)
  | OGetEllapsed => forget (call getEllapsed clk s)
  | OGetPreset => forget (call (fun _ => getPreset) clk s)
  | OHasStarted => forget (call (fun _ => hasStarted) clk s)
  end.

(** A sketch: statements, each with the readings of the time source during
    it.  A call through a null pointer ends the run. *)
Fixpoint perform_all (ops : list (Op * Clock)) (s : Sys) : Outcome unit :=
  match ops with
  | [] => Returned tt s
  | (op, clk) :: ops' =>
      match perform op clk s with
      | Returned _ s' => perform_all ops' s'
      | Crashed s' => Crashed s'
      end
  end.

(** The state a run ends in, returned or not. *)
Definition final {A} (o : Outcome A) : Sys :=
  match o with
  | Returned _ s => s
  | Crashed s => s
  end.

(** The function pointers a sketch hands to the timer. *)
Definition task_of (op : Op) : FnPtr :=
  match op with
  | OSetTimeout _ task | OSetTimeoutTask task
  | OSetInterval _ _ task | OSetIntervalForever _ task => task
  | _ => None
  end.

Fixpoint tasks_of (ops : list (Op * Clock)) : list Task :=
  match ops with
  | [] => []
  | (op, _) :: ops' =>
      match task_of op with
      | Some f => f :: tasks_of ops'
      | None => tasks_of ops'
      end
  end.

(** A one-shot armed by [setTimeout] on a timer that was used before: the
    counter and the first-fire flag are what the earlier use left. *)
Definition oneshot_rearmed (rc : Z) (ex : bool) (delay : Z) (f : Task) (la : Z)
  : Timer :=
  mkTimer false rc delay la false true ex (Some f).

Definition oneshot_spent (ex : bool) (delay : Z) (la : Z) : Timer :=
  mkTimer false 0 delay la false false ex None.

(** ** Arithmetic of the machine integers *)

Arguments wrapUL : simpl never.
Arguments int_dec : simpl never.

Lemma wrapUL_small (z : Z) : 0 <= z < ULONG_MOD -> wrapUL z = z.
Proof. intros H. unfold wrapUL. apply Z.mod_small. exact H. Qed.

Lemma wrapUL_range (z : Z) : 0 <= wrapUL z < ULONG_MOD.
Proof. unfold wrapUL. apply Z.mod_pos_bound. reflexivity. Qed.

Lemma elapsed_exact (now last : Z) :
  0 <= last -> last <= now -> now < ULONG_MOD ->
  wrapUL (wrapUL now - last) = now - last.
Proof.
  intros H0 H1 H2.
  rewrite (wrapUL_small now) by lia.
  apply wrapUL_small. lia.
Qed.

Lemma elapsed_same_reading (now : Z) : wrapUL (wrapUL now - wrapUL now) = 0.
Proof. rewrite Z.sub_diag. reflexivity. Qed.

Lemma int_dec_small (x : Z) : INT_MIN < x <= INT_MAX -> int_dec x = x - 1.
Proof.
  unfold INT_MIN, INT_MAX, int_dec, wrap_int. intros H.
  rewrite Z.mod_small by lia. lia.
Qed.

(** ** Running a member function *)

Ltac members :=
  unfold call, poll_at, tick, setInterval_forever, setInterval, setTimeout,
    setTimeout_task, reset, stop, start, set, isRunning, isDone, getEllapsed,
    hasStarted, millis, invoke, modify, get, bind, ret,
    running_at, done_at, elapsed_at in *.

Ltac split_ifs :=
  repeat match goal with
         | |- context [if ?b then _ else _] => destruct b eqn:?; cbn in *
         end.

(** [isDone] as a function of the reading it takes. *)
Lemma isDone_spec (clk : Clock) (e : Env) :
  isDone clk e =
  Ok (done_at (clk (reads e)) (tm e))
     (mkEnv (if done_at (clk (reads e)) (tm e) then with_done true (tm e)
             else tm e)
            (if _started (tm e) then S (reads e) else reads e)
            (trace e)).
Proof.
  destruct e as [[rm rc ti la dn st ex cb] n tr].
  members; cbn. destruct st; cbn; [|reflexivity].
  destruct (ti <=? _); reflexivity.
Qed.

(** [isRunning] as a function of the reading it takes. *)
Lemma isRunning_spec (clk : Clock) (e : Env) :
  isRunning clk e =
  Ok (running_at (clk (reads e)) (tm e))
     (mkEnv (if done_at (clk (reads e)) (tm e) then with_done true (tm e)
             else tm e)
            (if _started (tm e) then S (reads e) else reads e)
            (trace e)).
Proof.
  destruct e as [[rm rc ti la dn st ex cb] n tr].
  members; cbn. destruct st; cbn; [|reflexivity].
  destruct (ti <=? _); reflexivity.
Qed.

(** A timer that is not started is not running, whatever the time. *)
Lemma not_started_not_running (clk : Clock) (s : Sys) :
  _started (timer s) = false ->
  call isRunning clk s = Returned false s.
Proof.
  destruct s as [[rm rc ti la dn st ex cb] tr]. cbn. intros ->.
  reflexivity.
Qed.

(** ** configure *)

(** C7. [set(duration)] returns in every state of the timer, running or
    stopped, and changes the [_time] member only: [_last], [_started],
    [_done], [_repeatMode], [_repetitionCount], [_execOnce] and [_callback]
    keep their values, no callback is invoked and the time source is not
    read. *)
Theorem set_changes_only_duration (clk : Clock) (s : Sys) (duration : Z) :
  exists s',
    call (fun _ => set duration) clk s = Returned tt s' /\
    _time (timer s') = duration /\
    _last (timer s') = _last (timer s) /\
    _started (timer s') = _started (timer s) /\
    _done (timer s') = _done (timer s) /\
    _repeatMode (timer s') = _repeatMode (timer s) /\
    _repetitionCount (timer s') = _repetitionCount (timer s) /\
    _execOnce (timer s') = _execOnce (timer s) /\
    _callback (timer s') = _callback (timer s) /\
    fired s' = fired s.
Proof.
  destruct s as [t tr]. eexists. split; [reflexivity|].
  cbn. repeat split.
Qed.

(** ** halt *)

(** C10. [stop()] on a running timer returns 0, not the time since the
    timer was started.  Inside the call the first reading serves the
    [isDone()] whose result is assigned to [_done], the second the
    [isRunning()] test, the third refreshes [_last] and the fourth is the
    one [getEllapsed()] subtracts [_last] from: when the timer is running at
    the second reading and the time source shows the same value at the third
    and the fourth, the result is 0, [_last] holds the third reading and the
    timer is stopped. *)
Theorem stop_running_returns_zero (clk : Clock) (s : Sys) :
  running_at (clk 1%nat) (timer s) = true ->
  wrapUL (clk 3%nat) = wrapUL (clk 2%nat) ->
  exists s',
    call stop clk s = Returned 0 s' /\
    _last (timer s') = wrapUL (clk 2%nat) /\
    _started (timer s') = false /\
    fired s' = fired s.
Proof.
  destruct s as [[rm rc ti la dn st ex cb] tr].
  unfold running_at, elapsed_at; cbn.
  intros Hrun Hsame.
  destruct st; [cbn in Hrun|discriminate].
  apply negb_true_iff in Hrun.
  members; cbn.
  destruct (ti <=? wrapUL (wrapUL (clk 0%nat) - la)); cbn;
    rewrite Hrun; cbn; rewrite Hsame, elapsed_same_reading;
    eexists; (split; [reflexivity|]); cbn; repeat split.
Qed.

Lemma stop_running_returns_zero_witness :
  exists s',
    call stop clock_50_51
         (mkSys (mkTimer false 0 100 0 false true false (Some 7%nat)) [])
    = Returned 0 s' /\
    _last (timer s') = wrapUL (clock_50_51 2%nat) /\
    _started (timer s') = false /\
    fired s' = [].
Proof.
  apply (stop_running_returns_zero clock_50_51
           (mkSys (mkTimer false 0 100 0 false true false (Some 7%nat)) []));
    reflexivity.
Defined.

(** ** Busy rejection *)

(** C5. While the timer is running (started, and at the first reading of
    the call the elapsed time is below [_time]), each of the four schedule
    calls returns [false] and leaves the object and the list of invoked
    callbacks exactly as they were, so that whatever follows runs as it
    would have without the call. *)
Theorem schedule_rejected_while_running
    (clk : Clock) (s : Sys) (delay period times : Z) (task : FnPtr) :
  running_at (clk 0%nat) (timer s) = true ->
  call (fun c => setTimeout c delay task) clk s = Returned false s /\
  call (fun c => setTimeout_task c task) clk s = Returned false s /\
  call (fun c => setInterval c period times task) clk s = Returned false s /\
  call (fun c => setInterval_forever c period task) clk s = Returned false s.
Proof.
  intros Hrun.
  assert (Hdone : done_at (clk 0%nat) (timer s) = false).
  { unfold running_at, done_at in *.
    destruct (_started (timer s)); [|reflexivity].
    cbn in *. apply negb_true_iff. exact Hrun. }
  assert (Hst : _started (timer s) = true).
  { unfold running_at in Hrun. apply andb_true_iff in Hrun. apply Hrun. }
  destruct s as [t tr]. cbn [timer] in *.
  repeat split;
    unfold call, setInterval_forever, setInterval, setTimeout,
      setTimeout_task, bind;
    rewrite isRunning_spec; cbn [tm reads trace timer fired];
    rewrite Hrun, Hdone; reflexivity.
Qed.

Lemma schedule_rejected_while_running_witness :
  call (fun c => setTimeout c 10 (Some 8%nat)) (at_time 50) sample_running
  = Returned false sample_running /\
  call (fun c => setTimeout_task c (Some 8%nat)) (at_time 50) sample_running
  = Returned false sample_running /\
  call (fun c => setInterval c 20 3 (Some 8%nat)) (at_time 50) sample_running
  = Returned false sample_running /\
  call (fun c => setInterval_forever c 20 (Some 8%nat)) (at_time 50)
       sample_running
  = Returned false sample_running.
Proof.
  apply (schedule_rejected_while_running (at_time 50) sample_running
           10 20 3 (Some 8%nat)).
  reflexivity.
Defined.

(** ** halt, twice *)

(** C6. Two [stop()] calls in a row, with no [start()] between them, under a
    time source that does not decrease and does not wrap around during the
    two calls, on a timer whose [_last] is an earlier reading of that
    source: both calls return, [isRunning()] is [false] after each of them
    at every later time, and the second call returns at least what the first
    returned. *)
Theorem stop_twice_elapsed_monotone (c1 c2 : Clock) (s : Sys) :
  (forall i, 0 <= c1 i < ULONG_MOD) ->
  (forall i, 0 <= c2 i < ULONG_MOD) ->
  (forall i j, (i <= j)%nat -> c1 i <= c1 j) ->
  (forall i j, c1 i <= c2 j) ->
  0 <= _last (timer s) <= c1 0%nat ->
  exists e1 s1 e2 s2,
    call stop c1 s = Returned e1 s1 /\
    call stop c2 s1 = Returned e2 s2 /\
    (forall c, call isRunning c s1 = Returned false s1) /\
    (forall c, call isRunning c s2 = Returned false s2) /\
    e1 <= e2.
Proof.
  intros R1 R2 Mono Cross Hlast.
  change ULONG_MOD with 4294967296 in R1, R2.
  destruct s as [[rm rc ti la dn st ex cb] tr]. cbn in Hlast.
  pose proof (R1 0%nat) as R10. pose proof (R1 1%nat) as R11.
  pose proof (R1 2%nat) as R12. pose proof (R1 3%nat) as R13.
  pose proof (R2 0%nat) as R20.
  pose proof (Mono 0%nat 1%nat ltac:(lia)) as M01.
  pose proof (Mono 0%nat 2%nat ltac:(lia)) as M02.
  pose proof (Mono 2%nat 3%nat ltac:(lia)) as M23.
  pose proof (Cross 0%nat 0%nat) as X0. pose proof (Cross 1%nat 0%nat) as X1.
  pose proof (Cross 2%nat 0%nat) as X2. pose proof (Cross 3%nat 0%nat) as X3.
  members; cbn.
  destruct st; cbn; split_ifs;
    do 4 eexists;
    (split; [reflexivity|]); (split; [reflexivity|]);
    (split; [intros c; reflexivity|]); (split; [intros c; reflexivity|]);
    cbn;
    rewrite ?(wrapUL_small (c1 0%nat)), ?(wrapUL_small (c1 1%nat)),
      ?(wrapUL_small (c1 2%nat)), ?(wrapUL_small (c1 3%nat)),
      ?(wrapUL_small (c2 0%nat)) by assumption;
    rewrite !wrapUL_small by (change ULONG_MOD with 4294967296; lia);
    lia.
Qed.

Lemma stop_twice_elapsed_monotone_witness :
  exists e1 s1 e2 s2,
    call stop (at_time 50)
         (mkSys (mkTimer false 0 100 10 false true false (Some 7%nat)) [])
    = Returned e1 s1 /\
    call stop (at_time 80) s1 = Returned e2 s2 /\
    (forall c, call isRunning c s1 = Returned false s1) /\
    (forall c, call isRunning c s2 = Returned false s2) /\
    e1 <= e2.
Proof.
  apply (stop_twice_elapsed_monotone (at_time 50) (at_time 80)
           (mkSys (mkTimer false 0 100 10 false true false (Some 7%nat)) []));
    unfold at_time, ULONG_MOD; cbn; intros; lia.
Defined.


(** ** Frames of the member functions *)

Ltac projs :=
  cbn [tm reads trace timer fired
       _repeatMode _repetitionCount _time _last _done _started _execOnce
       _callback andb orb negb].

Ltac mstep :=
  cbv beta iota zeta delta
    [at_time fresh Timer_new oneshot_armed oneshot_idle repeat_armed
     repeat_cycling repeat_finished call tick setInterval_forever setInterval setTimeout setTimeout_task
     reset stop start set isRunning isDone getEllapsed hasStarted millis
     invoke modify get bind ret
     with_repeatMode with_repetitionCount with_time with_last with_done
     with_started with_execOnce with_callback
     tm reads trace timer fired
     _repeatMode _repetitionCount _time _last _done _started _execOnce
     _callback andb orb negb].

Ltac case_if :=
  match goal with
  | |- context [if ?b then _ else _] => destruct b eqn:?; mstep
  end.

(** [stop()] always returns; it leaves the timer not started, may latch
    [_done] and refresh [_last], and touches nothing else. *)
Lemma stop_frame (clk : Clock) (e : Env) :
  exists el la dn n,
    stop clk e =
    Ok el (mkEnv (mkTimer (_repeatMode (tm e)) (_repetitionCount (tm e))
                          (_time (tm e)) la dn false (_execOnce (tm e))
                          (_callback (tm e)))
                 n (trace e)).
Proof.
  destruct e as [[rm rc ti la dn st ex cb] n tr].
  mstep. destruct st; mstep; repeat case_if;
    do 4 eexists; reflexivity.
Qed.

(** [reset()] always returns; it leaves the timer not started, with no
    callback and a zero counter, and keeps [_time], [_repeatMode] and
    [_execOnce]. *)
Lemma reset_frame (clk : Clock) (e : Env) :
  exists n,
    reset clk e =
    Ok tt (mkEnv (mkTimer (_repeatMode (tm e)) 0 (_time (tm e))
                          (wrapUL (clk (Nat.pred n))) false false
                          (_execOnce (tm e)) None)
                 n (trace e)).
Proof.
  destruct e as [[rm rc ti la dn st ex cb] n tr].
  mstep. destruct st; mstep; repeat case_if;
    eexists (S _); reflexivity.
Qed.

Ltac mprim :=
  cbv beta iota zeta delta
    [call start set hasStarted millis invoke modify get bind ret
     with_repeatMode with_repetitionCount with_time with_last with_done
     with_started with_execOnce with_callback
     tm reads trace timer fired
     _repeatMode _repetitionCount _time _last _done _started _execOnce
     _callback andb orb negb].

Ltac use_reset_frame :=
  match goal with
  | |- context [reset ?c ?e] =>
      let n := fresh "n" in
      let Hn := fresh "Hreset" in
      destruct (reset_frame c e) as [n Hn]; rewrite Hn; clear Hn
  end.

Ltac use_stop_frame :=
  match goal with
  | |- context [stop ?c ?e] =>
      let el := fresh "el" in
      let la := fresh "la" in
      let dn := fresh "dn" in
      let n := fresh "n" in
      let Hn := fresh "Hstop" in
      destruct (stop_frame c e) as (el & la & dn & n & Hn); rewrite Hn; clear Hn
  end.

(** The state a successful [setInterval] leaves: armed, started, the
    first-fire flag clear. *)
Lemma setInterval_success (clk : Clock) (s s1 : Sys)
      (period times : Z) (task : FnPtr) :
  call (fun c => setInterval c period times task) clk s = Returned true s1 ->
  running_at (clk 0%nat) (timer s) = false /\
  _execOnce (timer s) = false /\
  exists la,
    s1 = mkSys (mkTimer true times period la false true false task) (fired s).
Proof.
  destruct s as [[rm rc ti la dn st ex cb] tr].
  unfold running_at, elapsed_at.
  destruct st; mstep; repeat case_if; intros H;
    try discriminate; injection H as <-;
    (split; [reflexivity|]); (split; [reflexivity|eexists; reflexivity]).
Qed.

(** ** The first fire of a repeating timer *)

(** C9. When [setInterval(period, times, f)] has succeeded and [stop()] is
    called before any [tick()], the next [tick()] still calls [f] once and
    decrements [_repetitionCount] (to [times - 1]), although the timer is
    not started: the branch at the top of [tick] looks at [_repeatMode] and
    [_execOnce] only.  Nothing else happens in that [tick()]: the timer stays
    stopped. *)
Theorem first_fire_ignores_started
    (c1 c2 c3 : Clock) (s s1 : Sys) (period times : Z) (f : Task) :
  INT_MIN < times <= INT_MAX ->
  call (fun c => setInterval c period times (Some f)) c1 s = Returned true s1 ->
  exists e s2 s3,
    call stop c2 s1 = Returned e s2 /\
    _started (timer s2) = false /\
    call tick c3 s2 = Returned tt s3 /\
    fired s3 = fired s ++ [f] /\
    _repetitionCount (timer s3) = times - 1 /\
    _started (timer s3) = false.
Proof.
  intros Hrange Hset.
  apply setInterval_success in Hset as (_ & _ & la & ->).
  unfold call at 1. cbn [timer fired].
  use_stop_frame. cbn [tm trace _repeatMode _repetitionCount _time
                       _execOnce _callback].
  do 3 eexists.
  split; [reflexivity|]. split; [reflexivity|].
  mstep. rewrite (int_dec_small times Hrange).
  split; [reflexivity|]. repeat split.
Qed.

Lemma first_fire_ignores_started_witness :
  exists e s2 s3,
    call stop (at_time 5)
         (mkSys (mkTimer true 3 100 0 false true false (Some 7%nat)) [])
    = Returned e s2 /\
    _started (timer s2) = false /\
    call tick (at_time 6) s2 = Returned tt s3 /\
    fired s3 = fired (fresh 1000) ++ [7%nat] /\
    _repetitionCount (timer s3) = 3 - 1 /\
    _started (timer s3) = false.
Proof.
  apply (first_fire_ignores_started (at_time 0) (at_time 5) (at_time 6)
           (fresh 1000) _ 100 3 7%nat).
  - unfold INT_MIN, INT_MAX. lia.
  - reflexivity.
Defined.

(** ** The first-fire flag is never cleared *)

(** Once [_execOnce] is set, [setInterval] is refused, whatever else the
    state of the timer is. *)
Lemma setInterval_refused_when_execOnce
      (clk : Clock) (s : Sys) (period times : Z) (task : FnPtr) :
  _execOnce (timer s) = true ->
  exists s',
    call (fun c => setInterval c period times task) clk s = Returned false s' /\
    _execOnce (timer s') = true /\
    fired s' = fired s.
Proof.
  destruct s as [[rm rc ti la dn st ex cb] tr]. cbn. intros ->.
  destruct st; mstep; repeat case_if; eexists; repeat split.
Qed.

(** [tick], [stop], [reset], [start] and [set] keep a set [_execOnce]. *)
Lemma execOnce_kept_by_tick (clk : Clock) (s s' : Sys) :
  _execOnce (timer s) = true ->
  call tick clk s = Returned tt s' ->
  _execOnce (timer s') = true.
Proof.
  destruct s as [[rm rc ti la dn st ex cb] tr]. cbn. intros ->.
  destruct st, rm, cb; mstep; repeat case_if; intros H;
    injection H as <-; reflexivity.
Qed.

Lemma execOnce_kept_by_reset (clk : Clock) (s s' : Sys) :
  _execOnce (timer s) = true ->
  call reset clk s = Returned tt s' ->
  _execOnce (timer s') = true.
Proof.
  destruct s as [[rm rc ti la dn st ex cb] tr]. cbn. intros ->.
  destruct st; mstep; repeat case_if; intros H;
    injection H as <-; reflexivity.
Qed.

(** C3. A counted sequence is armed on a new timer and polled to its end
    (three invocations, the counter exhausted, the callback released, the
    timer no longer running).  A second [setInterval] is then refused: the
    first [tick()] set [_execOnce], and neither the completion of the
    sequence nor [reset()] clears it. *)
Theorem setInterval_refused_after_completed_sequence :
  call (fun c => setInterval c 100 3 (Some 7%nat)) (at_time 0) (fresh 1000)
  = Returned true sample_armed /\
  poll_at [0; 100; 200; 300] sample_armed = Returned tt sample_completed /\
  _callback (timer sample_completed) = None /\
  call isRunning (at_time 400) sample_completed
  = Returned false sample_completed /\
  call (fun c => setInterval c 100 3 (Some 7%nat)) (at_time 400)
       sample_completed
  = Returned false sample_completed /\
  call reset (at_time 500) sample_completed
  = Returned tt sample_completed_reset /\
  call (fun c => setInterval c 100 3 (Some 7%nat)) (at_time 600)
       sample_completed_reset
  = Returned false sample_completed_reset.
Proof.
  repeat split; vm_compute; reflexivity.
Qed.

(** ** Polling after a reset *)

(** After [reset()], a [tick()] changes nothing and invokes nothing, unless
    the timer is in repeating mode with the first-fire flag still clear. *)
Lemma tick_after_reset_idle (c1 c2 : Clock) (s s1 : Sys) :
  _repeatMode (timer s) && negb (_execOnce (timer s)) = false ->
  call reset c1 s = Returned tt s1 ->
  call tick c2 s1 = Returned tt s1.
Proof.
  destruct s as [[rm rc ti la dn st ex cb] tr]. cbn. intros Hg.
  unfold call at 1. cbn [timer fired].
  use_reset_frame. cbn [tm trace _repeatMode _time _execOnce].
  intros H; injection H as <-.
  destruct rm, ex; try discriminate; reflexivity.
Qed.

(** C4. A repeating schedule is armed and [reset()] is called before the
    first [tick()].  The next [tick()] is not a no-op: the branch at the top
    of [tick] sets [_execOnce], decrements [_repetitionCount] to -1 and calls
    through [_callback], which [reset()] has set to [nullptr]; the check
    [if (!_callback) return;] comes only after that branch. *)
Theorem tick_after_reset_calls_null_callback :
  call (fun c => setInterval c 100 3 (Some 7%nat)) (at_time 0) (fresh 1000)
  = Returned true sample_armed /\
  call reset (at_time 5) sample_armed = Returned tt sample_reset_unpolled /\
  _callback (timer sample_reset_unpolled) = None /\
  call tick (at_time 6) sample_reset_unpolled = Crashed sample_fault.
Proof.
  repeat split; vm_compute; reflexivity.
Qed.

(** ** One-shot schedules *)

Lemma setTimeout_on_fresh (d0 delay t0 : Z) (f : Task) :
  0 <= t0 < ULONG_MOD ->
  call (fun c => setTimeout c delay (Some f)) (at_time t0) (fresh d0)
  = Returned true (mkSys (oneshot_armed delay f t0) []).
Proof.
  intros H. mstep. rewrite (wrapUL_small t0 H). reflexivity.
Qed.

Lemma tick_oneshot_early (delay la t : Z) (f : Task) (tr : list Task) :
  0 <= la -> la <= t -> t < ULONG_MOD -> t - la < delay ->
  call tick (at_time t) (mkSys (oneshot_armed delay f la) tr)
  = Returned tt (mkSys (oneshot_armed delay f la) tr).
Proof.
  intros H0 H1 H2 H3. mstep.
  rewrite (elapsed_exact t la H0 H1 H2).
  destruct (Z.leb_spec delay (t - la)); [lia|reflexivity].
Qed.

Lemma tick_oneshot_due (delay la t : Z) (f : Task) (tr : list Task) :
  0 <= la -> la <= t -> t < ULONG_MOD -> delay <= t - la ->
  call tick (at_time t) (mkSys (oneshot_armed delay f la) tr)
  = Returned tt (mkSys (oneshot_idle delay t) (tr ++ [f])).
Proof.
  intros H0 H1 H2 H3. mstep.
  rewrite (elapsed_exact t la H0 H1 H2).
  destruct (Z.leb_spec delay (t - la)); [|lia].
  mstep. rewrite (elapsed_exact t la H0 H1 H2).
  destruct (Z.leb_spec delay (t - la)); [|lia].
  mstep. rewrite (elapsed_exact t la H0 H1 H2).
  destruct (Z.leb_spec delay (t - la)); [|lia].
  mstep. rewrite wrapUL_small by lia. reflexivity.
Qed.

(** A timer that is not started, in one-shot mode or with the first-fire
    flag already set, ignores every [tick()]. *)
Lemma tick_not_started (clk : Clock) (s : Sys) :
  _started (timer s) = false ->
  _repeatMode (timer s) && negb (_execOnce (timer s)) = false ->
  call tick clk s = Returned tt s.
Proof.
  destruct s as [[rm rc ti la dn st ex cb] tr]. cbn. intros -> Hg.
  destruct rm, ex; try discriminate; reflexivity.
Qed.

Lemma poll_each_not_started (cs : list Clock) (s : Sys) :
  _started (timer s) = false ->
  _repeatMode (timer s) && negb (_execOnce (timer s)) = false ->
  poll_each cs s = Returned tt s.
Proof.
  intros Hs Hg. induction cs as [|c cs IH]; [reflexivity|].
  cbn [poll_each]. rewrite (tick_not_started c s Hs Hg). exact IH.
Qed.

Lemma poll_at_cons (t : Z) (ts : list Z) (s : Sys) :
  poll_at (t :: ts) s =
  match call tick (at_time t) s with
  | Returned _ s' => poll_at ts s'
  | Crashed s' => Crashed s'
  end.
Proof. reflexivity. Qed.

(** Polling an armed one-shot: nothing before the deadline, one invocation
    at the first poll that sees the deadline reached, nothing afterwards. *)
Lemma poll_oneshot (delay la : Z) (f : Task) (ts : list Z) (tr : list Task) :
  0 <= la ->
  Forall (fun t => la <= t < ULONG_MOD) ts ->
  (Forall (fun t => t - la < delay) ts /\
   poll_at ts (mkSys (oneshot_armed delay f la) tr)
   = Returned tt (mkSys (oneshot_armed delay f la) tr)) \/
  (Exists (fun t => delay <= t - la) ts /\
   exists la',
     poll_at ts (mkSys (oneshot_armed delay f la) tr)
     = Returned tt (mkSys (oneshot_idle delay la') (tr ++ [f]))).
Proof.
  intros H0 Hts. induction Hts as [|t ts [Ht1 Ht2] Hts IH].
  - left. split; [constructor|reflexivity].
  - rewrite poll_at_cons.
    destruct (Z.lt_ge_cases (t - la) delay) as [Hearly|Hdue].
    + rewrite (tick_oneshot_early delay la t f tr H0 Ht1 Ht2 Hearly).
      destruct IH as [[Hall Hrun]|[Hex Hrun]].
      * left. split; [constructor; assumption|exact Hrun].
      * right. split; [apply Exists_cons_tl; exact Hex|exact Hrun].
    + rewrite (tick_oneshot_due delay la t f tr H0 Ht1 Ht2 Hdue).
      right. split; [apply Exists_cons_hd; exact Hdue|].
      exists t. unfold poll_at. apply poll_each_not_started; reflexivity.
Qed.

Lemma invocations_single (f : Task) (tm0 : Timer) :
  invocations f (mkSys tm0 [f]) = 1%nat.
Proof.
  unfold invocations. cbn. destruct (Nat.eq_dec f f); congruence.
Qed.

Lemma invocations_repeat (f : Task) (tm0 : Timer) (n : nat) :
  invocations f (mkSys tm0 (repeat f n)) = n.
Proof.
  unfold invocations. cbn [fired]. induction n as [|n IH]; [reflexivity|].
  cbn. destruct (Nat.eq_dec f f); congruence.
Qed.

Lemma invocations_other (f g : Task) (tm0 : Timer) (n : nat) :
  f <> g -> invocations f (mkSys tm0 (repeat g n)) = 0%nat.
Proof.
  intros Hfg. unfold invocations. cbn [fired].
  induction n as [|n IH]; [reflexivity|].
  cbn. destruct (Nat.eq_dec g f); [congruence|exact IH].
Qed.

(** C2. [setTimeout(delay, f)] on a new timer succeeds.  When the sketch
    then polls at instants that are not before the scheduling instant and do
    not wrap around, and at least one poll comes [delay] milliseconds or more
    after the scheduling instant, [f] has been invoked exactly once when the
    polling ends; from then on [isRunning()] is [false] at every time and
    further polls do nothing. *)
Theorem oneshot_fires_exactly_once
    (d0 delay t0 : Z) (f : Task) (ts : list Z) :
  0 <= t0 < ULONG_MOD ->
  Forall (fun t => t0 <= t < ULONG_MOD) ts ->
  Exists (fun t => delay <= t - t0) ts ->
  exists s1 s2,
    call (fun c => setTimeout c delay (Some f)) (at_time t0) (fresh d0)
    = Returned true s1 /\
    poll_at ts s1 = Returned tt s2 /\
    fired s2 = [f] /\
    invocations f s2 = 1%nat /\
    (forall c, call isRunning c s2 = Returned false s2) /\
    (forall cs, poll_each cs s2 = Returned tt s2).
Proof.
  intros Ht0 Hts Hpast.
  exists (mkSys (oneshot_armed delay f t0) []).
  destruct (poll_oneshot delay t0 f ts [] (proj1 Ht0) Hts)
    as [[Hall _]|[_ [la' Hrun]]].
  - exfalso. apply Exists_exists in Hpast as (t & Hin & Hge).
    rewrite Forall_forall in Hall. specialize (Hall t Hin). cbn in Hall. lia.
  - exists (mkSys (oneshot_idle delay la') [f]).
    split; [apply setTimeout_on_fresh; exact Ht0|].
    split; [exact Hrun|].
    split; [reflexivity|].
    split; [apply invocations_single|].
    split.
    + intros c. apply not_started_not_running. reflexivity.
    + intros cs. apply poll_each_not_started; reflexivity.
Qed.

Lemma oneshot_fires_exactly_once_witness :
  exists s1 s2,
    call (fun c => setTimeout c 100 (Some 7%nat)) (at_time 0) (fresh 1000)
    = Returned true s1 /\
    poll_at [0; 40; 99; 130; 250] s1 = Returned tt s2 /\
    fired s2 = [7%nat] /\
    invocations 7%nat s2 = 1%nat /\
    (forall c, call isRunning c s2 = Returned false s2) /\
    (forall cs, poll_each cs s2 = Returned tt s2).
Proof.
  apply (oneshot_fires_exactly_once 1000 100 0 7%nat [0; 40; 99; 130; 250]).
  - unfold ULONG_MOD. lia.
  - unfold ULONG_MOD. repeat constructor; lia.
  - do 3 apply Exists_cons_tl. apply Exists_cons_hd. lia.
Defined.

(** ** Rescheduling over a pending one-shot *)

(** One [tick()] of a timer in one-shot mode invokes at most the stored
    callback, and then releases it. *)
Lemma tick_oneshot_step (clk : Clock) (t : Timer) (tr : list Task) :
  _repeatMode t = false ->
  exists t',
    _repeatMode t' = false /\
    ((call tick clk (mkSys t tr) = Returned tt (mkSys t' tr) /\
      _callback t' = _callback t) \/
     (exists f, call tick clk (mkSys t tr) = Returned tt (mkSys t' (tr ++ [f]))
                /\ _callback t = Some f /\ _callback t' = None)).
Proof.
  destruct t as [rm rc ti la dn st ex cb]. cbn. intros ->.
  destruct st, cb as [f|]; mstep; repeat case_if;
    eexists;
    (split;
     [|first [ left; split; reflexivity
             | right; eexists; repeat split; reflexivity ]]);
    reflexivity.
Qed.

Lemma poll_oneshot_invokes_only (g : Task) (cs : list Clock) :
  forall (t : Timer) (tr : list Task),
    _repeatMode t = false ->
    _callback t = Some g \/ _callback t = None ->
    exists t' k,
      poll_each cs (mkSys t tr) = Returned tt (mkSys t' (tr ++ repeat g k)).
Proof.
  induction cs as [|c cs IH]; intros t tr Hrm Hcb.
  - exists t, 0%nat. cbn. rewrite app_nil_r. reflexivity.
  - cbn [poll_each].
    destruct (tick_oneshot_step c t tr Hrm)
      as (t' & Hrm' & [[Htick Hcb']|(f & Htick & Hf & Hcb')]);
      rewrite Htick.
    + destruct (IH t' tr Hrm') as (t'' & k & Hrun).
      { rewrite Hcb'. exact Hcb. }
      exists t'', k. exact Hrun.
    + destruct (IH t' (tr ++ [f]) Hrm') as (t'' & k & Hrun).
      { right. exact Hcb'. }
      exists t'', (S k). rewrite Hrun, <- app_assoc.
      destruct Hcb as [Hg|Hn]; [|congruence].
      rewrite Hf in Hg. injection Hg as ->. reflexivity.
Qed.

(** The two-argument [setTimeout] over a pending one-shot: it tests
    [isRunning()] once with the old [_time], stores the new delay, and tests
    again in the one-argument overload.  With a new delay that has not yet
    elapsed the second test refuses: the call returns [false], [f] stays
    armed, and [_time] and [_done] have changed. *)
Remark setTimeout_longer_delay_over_pending
       (delay delay' t0 t1 : Z) (f g : Task) :
  0 <= t0 -> t0 <= t1 -> t1 < ULONG_MOD ->
  delay <= t1 - t0 -> t1 - t0 < delay' ->
  call (fun c => setTimeout c delay' (Some g)) (at_time t1)
       (mkSys (oneshot_armed delay f t0) [])
  = Returned false (mkSys (mkTimer false 0 delay' t0 true true false (Some f)) []).
Proof.
  intros H0 H01 H1 Hdue Hshort. mstep.
  rewrite (elapsed_exact t1 t0 H0 H01 H1).
  destruct (Z.leb_spec delay (t1 - t0)); [|lia].
  mstep. rewrite (elapsed_exact t1 t0 H0 H01 H1).
  destruct (Z.leb_spec delay' (t1 - t0)); [lia|].
  reflexivity.
Qed.

(** C8. A one-shot [f] is scheduled on a new timer at [t0]; at [t1] its
    deadline has passed and no [tick()] has run since.  At that moment the
    action is still pending (a [tick()] would invoke [f]), yet [isRunning()]
    returns [false].  [setTimeout(g)] therefore succeeds: it overwrites
    [_callback] with [g] and restarts the timer, and whatever polling
    follows, [f] is never invoked.  [setTimeout(delay', g)] does the same
    when the new delay has elapsed since [t0] as well; with a new delay that
    has not, its second [isRunning()] test refuses, the call returns [false]
    and [f] stays armed. *)
Theorem reschedule_drops_pending_oneshot
    (d0 delay delay' t0 t1 : Z) (f g : Task) :
  0 <= t0 -> t0 <= t1 -> t0 + delay <= t1 -> t1 < ULONG_MOD ->
  f <> g ->
  exists s1 s1' s2,
    call (fun c => setTimeout c delay (Some f)) (at_time t0) (fresh d0)
    = Returned true s1 /\
    (exists s, call tick (at_time t1) s1 = Returned tt s /\ fired s = [f]) /\
    call isRunning (at_time t1) s1 = Returned false s1' /\
    call (fun c => setTimeout_task c (Some g)) (at_time t1) s1
    = Returned true s2 /\
    call (fun c => setTimeout_task c (Some g)) (at_time t1) s1'
    = Returned true s2 /\
    _callback (timer s2) = Some g /\
    _started (timer s2) = true /\
    fired s2 = [] /\
    (forall cs, exists s3,
        poll_each cs s2 = Returned tt s3 /\ invocations f s3 = 0%nat) /\
    (delay' <= t1 - t0 ->
     exists s2',
       call (fun c => setTimeout c delay' (Some g)) (at_time t1) s1
       = Returned true s2' /\
       _callback (timer s2') = Some g /\
       _started (timer s2') = true /\
       _time (timer s2') = delay' /\
       fired s2' = [] /\
       (forall cs, exists s3,
           poll_each cs s2' = Returned tt s3 /\ invocations f s3 = 0%nat)) /\
    (t1 - t0 < delay' ->
     exists s2',
       call (fun c => setTimeout c delay' (Some g)) (at_time t1) s1
       = Returned false s2' /\
       _callback (timer s2') = Some f /\
       _started (timer s2') = true).
Proof.
  intros H0 H01 Hdue H1 Hfg.
  assert (Hle : (delay <=? t1 - t0) = true) by (apply Z.leb_le; lia).
  exists (mkSys (oneshot_armed delay f t0) []).
  exists (mkSys (with_done true (oneshot_armed delay f t0)) []).
  exists (mkSys (oneshot_armed delay g t1) []).
  split; [apply setTimeout_on_fresh; lia|].
  split.
  { eexists. split; [apply tick_oneshot_due; lia|reflexivity]. }
  split.
  { mstep. rewrite (elapsed_exact t1 t0 H0 H01 H1), Hle. reflexivity. }
  split.
  { mstep. rewrite (elapsed_exact t1 t0 H0 H01 H1), Hle. mstep.
    rewrite wrapUL_small by lia. reflexivity. }
  split.
  { mstep. rewrite (elapsed_exact t1 t0 H0 H01 H1), Hle. mstep.
    rewrite wrapUL_small by lia. reflexivity. }
  repeat (split; [reflexivity|]).
  split.
  { intros cs.
    destruct (poll_oneshot_invokes_only g cs (oneshot_armed delay g t1) [])
      as (t' & k & Hrun); [reflexivity|left; reflexivity|].
    eexists. split; [exact Hrun|].
    apply invocations_other. exact Hfg. }
  split.
  - intros Hshort.
    assert (Hle' : (delay' <=? t1 - t0) = true) by (apply Z.leb_le; lia).
    exists (mkSys (oneshot_armed delay' g t1) []).
    split.
    { mstep. rewrite (elapsed_exact t1 t0 H0 H01 H1), Hle. mstep.
      rewrite (elapsed_exact t1 t0 H0 H01 H1), Hle'. mstep.
      rewrite wrapUL_small by lia. reflexivity. }
    repeat (split; [reflexivity|]).
    intros cs.
    destruct (poll_oneshot_invokes_only g cs (oneshot_armed delay' g t1) [])
      as (t' & k & Hrun); [reflexivity|left; reflexivity|].
    eexists. split; [exact Hrun|].
    apply invocations_other. exact Hfg.
  - intros Hlong. eexists.
    split; [apply setTimeout_longer_delay_over_pending; lia|].
    split; reflexivity.
Qed.

Lemma reschedule_drops_pending_oneshot_witness :
  exists s1 s1' s2,
    call (fun c => setTimeout c 100 (Some 7%nat)) (at_time 0) (fresh 1000)
    = Returned true s1 /\
    (exists s, call tick (at_time 150) s1 = Returned tt s /\ fired s = [7%nat]) /\
    call isRunning (at_time 150) s1 = Returned false s1' /\
    call (fun c => setTimeout_task c (Some 8%nat)) (at_time 150) s1
    = Returned true s2 /\
    call (fun c => setTimeout_task c (Some 8%nat)) (at_time 150) s1'
    = Returned true s2 /\
    _callback (timer s2) = Some 8%nat /\
    _started (timer s2) = true /\
    fired s2 = [] /\
    (forall cs, exists s3,
        poll_each cs s2 = Returned tt s3 /\ invocations 7%nat s3 = 0%nat) /\
    (120 <= 150 - 0 ->
     exists s2',
       call (fun c => setTimeout c 120 (Some 8%nat)) (at_time 150) s1
       = Returned true s2' /\
       _callback (timer s2') = Some 8%nat /\
       _started (timer s2') = true /\
       _time (timer s2') = 120 /\
       fired s2' = [] /\
       (forall cs, exists s3,
           poll_each cs s2' = Returned tt s3 /\ invocations 7%nat s3 = 0%nat)) /\
    (150 - 0 < 120 ->
     exists s2',
       call (fun c => setTimeout c 120 (Some 8%nat)) (at_time 150) s1
       = Returned false s2' /\
       _callback (timer s2') = Some 7%nat /\
       _started (timer s2') = true).
Proof.
  apply (reschedule_drops_pending_oneshot 1000 100 120 0 150 7%nat 8%nat);
    unfold ULONG_MOD; lia.
Defined.

(** The claim above does not hold for every [setTimeout]: a one-shot [f]
    armed at 0 for 100 milliseconds is pending at 150, [isRunning()] returns
    [false], and [setTimeout(500, g)] is not accepted.  It returns [false],
    [f] stays stored, and the poll at 600 invokes [f]. *)
Lemma reschedule_with_longer_delay_keeps_pending_oneshot :
  call (fun c => setTimeout c 100 (Some 7%nat)) (at_time 0) (fresh 1000)
  = Returned true sample_running /\
  call isRunning (at_time 150) sample_running
  = Returned false (mkSys (with_done true (timer sample_running)) []) /\
  ~ (exists s2,
        call (fun c => setTimeout c 500 (Some 8%nat)) (at_time 150)
             sample_running
        = Returned true s2) /\
  call (fun c => setTimeout c 500 (Some 8%nat)) (at_time 150) sample_running
  = Returned false
      (mkSys (mkTimer false 0 500 0 true true false (Some 7%nat)) []) /\
  poll_at [600]
          (mkSys (mkTimer false 0 500 0 true true false (Some 7%nat)) [])
  = Returned tt (mkSys (mkTimer false 0 500 600 false false false None)
                       [7%nat]).
Proof.
  split; [vm_compute; reflexivity|].
  split; [vm_compute; reflexivity|].
  split.
  { intros [s2 H]. vm_compute in H. discriminate H. }
  split; vm_compute; reflexivity.
Qed.

(** ** Counted repeating schedules *)

Lemma setInterval_on_fresh (d0 period n t0 : Z) (f : Task) :
  0 <= t0 < ULONG_MOD ->
  call (fun c => setInterval c period n (Some f)) (at_time t0) (fresh d0)
  = Returned true (mkSys (repeat_armed period f n t0) []).
Proof.
  intros H. mstep. rewrite (wrapUL_small t0 H). reflexivity.
Qed.

(** The first [tick()] after arming: the immediate invocation, then the
    [tick()] of a sequence that is under way. *)
Lemma tick_armed (clk : Clock) (period n la : Z) (f : Task) (tr : list Task) :
  INT_MIN < n <= INT_MAX ->
  call tick clk (mkSys (repeat_armed period f n la) tr)
  = call tick clk (mkSys (repeat_cycling period f (n - 1) la) (tr ++ [f])).
Proof.
  intros Hn. mstep. rewrite (int_dec_small n Hn). reflexivity.
Qed.

Lemma tick_cycling_early (period c la t : Z) (f : Task) (tr : list Task) :
  0 <= la -> la <= t -> t < ULONG_MOD -> t - la < period ->
  call tick (at_time t) (mkSys (repeat_cycling period f c la) tr)
  = Returned tt (mkSys (repeat_cycling period f c la) tr).
Proof.
  intros H0 H1 H2 H3. mstep.
  rewrite (elapsed_exact t la H0 H1 H2).
  destruct (Z.leb_spec period (t - la)); [lia|reflexivity].
Qed.

Lemma tick_cycling_fire (period c la t : Z) (f : Task) (tr : list Task) :
  0 <= la -> la <= t -> t < ULONG_MOD -> period <= t - la ->
  c <> 0 -> INT_MIN < c <= INT_MAX ->
  call tick (at_time t) (mkSys (repeat_cycling period f c la) tr)
  = Returned tt (mkSys (repeat_cycling period f (c - 1) t) (tr ++ [f])).
Proof.
  intros H0 H1 H2 H3 Hc Hr. mstep.
  rewrite (elapsed_exact t la H0 H1 H2).
  destruct (Z.leb_spec period (t - la)); [|lia].
  mstep. destruct (Z.eqb_spec c 0); [contradiction|].
  mstep. rewrite (int_dec_small c Hr), wrapUL_small by lia. reflexivity.
Qed.

Lemma tick_cycling_last (period la t : Z) (f : Task) (tr : list Task) :
  0 <= la -> la <= t -> t < ULONG_MOD -> period <= t - la ->
  call tick (at_time t) (mkSys (repeat_cycling period f 0 la) tr)
  = Returned tt (mkSys (repeat_finished period t) tr).
Proof.
  intros H0 H1 H2 H3. mstep.
  rewrite (elapsed_exact t la H0 H1 H2).
  destruct (Z.leb_spec period (t - la)); [|lia].
  change (0 =? 0) with true.
  mstep. rewrite (elapsed_exact t la H0 H1 H2).
  destruct (Z.leb_spec period (t - la)); [|lia].
  mstep. rewrite (elapsed_exact t la H0 H1 H2).
  destruct (Z.leb_spec period (t - la)); [|lia].
  mstep. rewrite wrapUL_small by lia. reflexivity.
Qed.

Lemma repeat_snoc (f : Task) (tr : list Task) (k : nat) :
  (tr ++ [f]) ++ repeat f k = tr ++ repeat f (S k).
Proof. rewrite <- app_assoc. reflexivity. Qed.

(** While repetitions are left, the polls invoke the callback once per
    period crossed. *)
Lemma poll_cycling_in_progress (period : Z) (f : Task) (ts : list Z) :
  forall (c la lo : Z) (tr : list Task),
    0 <= c <= INT_MAX ->
    0 <= la -> la <= lo ->
    nondecreasing_from lo ts ->
    Forall (fun t => t < ULONG_MOD) ts ->
    (periods_crossed period la ts <= Z.to_nat c)%nat ->
    poll_at ts (mkSys (repeat_cycling period f c la) tr)
    = Returned tt
        (mkSys (repeat_cycling period f
                  (c - Z.of_nat (periods_crossed period la ts))
                  (restart_time period la ts))
               (tr ++ repeat f (periods_crossed period la ts))).
Proof.
  unfold INT_MAX.
  induction ts as [|t ts IH]; intros c la lo tr Hc Hla Hlo Hnd Hub Hk.
  - cbn. rewrite Z.sub_0_r, app_nil_r. reflexivity.
  - destruct Hnd as [Hlt Hnd]. inversion Hub as [|? ? Ht Hub']; subst.
    rewrite poll_at_cons. cbn [periods_crossed restart_time] in *.
    destruct (Z.leb_spec period (t - la)) as [Hdue|Hearly].
    + rewrite tick_cycling_fire; try lia; [|unfold INT_MIN, INT_MAX; lia].
      rewrite (IH (c - 1) t t (tr ++ [f])); try lia; try assumption.
      rewrite repeat_snoc. do 3 f_equal. lia.
    + rewrite tick_cycling_early; try lia.
      apply (IH c la t tr); try lia; assumption.
Qed.

(** Once more periods are crossed than repetitions are left, the sequence
    is over: the callback has been invoked once per repetition that was
    left, and the timer is stopped with the callback released. *)
Lemma poll_cycling_runs_out (period : Z) (f : Task) (ts : list Z) :
  forall (c la lo : Z) (tr : list Task),
    0 <= c <= INT_MAX ->
    0 <= la -> la <= lo ->
    nondecreasing_from lo ts ->
    Forall (fun t => t < ULONG_MOD) ts ->
    (Z.to_nat c < periods_crossed period la ts)%nat ->
    exists la',
      poll_at ts (mkSys (repeat_cycling period f c la) tr)
      = Returned tt (mkSys (repeat_finished period la')
                           (tr ++ repeat f (Z.to_nat c))).
Proof.
  unfold INT_MAX.
  induction ts as [|t ts IH]; intros c la lo tr Hc Hla Hlo Hnd Hub Hk.
  - cbn in Hk. lia.
  - destruct Hnd as [Hlt Hnd]. inversion Hub as [|? ? Ht Hub']; subst.
    rewrite poll_at_cons. cbn [periods_crossed] in Hk.
    destruct (Z.leb_spec period (t - la)) as [Hdue|Hearly].
    + destruct (Z.eq_dec c 0) as [->|Hc0].
      * rewrite tick_cycling_last; try lia.
        exists t. cbn [Z.to_nat repeat]. rewrite app_nil_r.
        unfold poll_at. apply poll_each_not_started; reflexivity.
      * rewrite tick_cycling_fire; try lia; [|unfold INT_MIN, INT_MAX; lia].
        destruct (IH (c - 1) t t (tr ++ [f])) as [la' Hrun];
          try lia; try assumption.
        exists la'. rewrite Hrun, repeat_snoc.
        replace (S (Z.to_nat (c - 1))) with (Z.to_nat c) by lia.
        reflexivity.
    + rewrite tick_cycling_early; try lia.
      apply (IH c la t tr); try lia; assumption.
Qed.

(** A sequence of [n] repetitions, armed at [la] and polled across at least
    [n] full periods: [n] invocations, then stopped for good. *)
Lemma counted_sequence_completes
      (period n la : Z) (f : Task) (ts : list Z) :
  1 <= n <= INT_MAX ->
  0 <= la ->
  nondecreasing_from la ts ->
  Forall (fun t => t < ULONG_MOD) ts ->
  (Z.to_nat n <= periods_crossed period la ts)%nat ->
  exists la',
    poll_at ts (mkSys (repeat_armed period f n la) [])
    = Returned tt (mkSys (repeat_finished period la') (repeat f (Z.to_nat n))).
Proof.
  intros Hn Hla Hnd Hub Hk.
  destruct ts as [|t ts]; [cbn in Hk; lia|].
  rewrite poll_at_cons, tick_armed, <- poll_at_cons
    by (unfold INT_MIN, INT_MAX in *; lia).
  destruct (poll_cycling_runs_out period f (t :: ts) (n - 1) la la ([] ++ [f]))
    as [la' Hrun]; try lia; try assumption.
  exists la'. rewrite Hrun. cbn [app].
  replace (Z.to_nat n) with (S (Z.to_nat (n - 1))) by lia. reflexivity.
Qed.

(** Polling in every millisecond crosses a period every [period]
    milliseconds. *)
Lemma every_ms_crosses (period : Z) (n : nat) :
  0 < period ->
  forall (k : nat) (la lo : Z),
    la <= lo <= la + period ->
    Z.of_nat k * period <= lo + Z.of_nat n - 1 - la ->
    (k <= periods_crossed period la (every_ms lo n))%nat.
Proof.
  intros Hp. induction n as [|n IH]; intros k la lo Hlo Hk.
  - destruct k as [|k]; [apply Nat.le_0_l|]. exfalso. nia.
  - cbn [every_ms periods_crossed].
    destruct (Z.leb_spec period (lo - la)) as [Hdue|Hearly].
    + destruct k as [|k]; [apply Nat.le_0_l|].
      apply le_n_S. apply IH; nia.
    + apply IH; lia.
Qed.

Lemma every_ms_nondecreasing (n : nat) :
  forall lo' lo, lo' <= lo -> nondecreasing_from lo' (every_ms lo n).
Proof.
  induction n as [|n IH]; intros lo' lo H; cbn; [exact I|].
  split; [exact H|]. apply IH. lia.
Qed.

Lemma every_ms_bounded (n : nat) :
  forall lo hi, lo + Z.of_nat n <= hi -> Forall (fun t => t < hi) (every_ms lo n).
Proof.
  induction n as [|n IH]; intros lo hi H; cbn; constructor; [lia|].
  apply IH. lia.
Qed.

(** Polled in every millisecond from the scheduling instant on, for [n]
    periods: [n] invocations, then stopped. *)
Lemma counted_sequence_polled_every_ms (d0 period n t0 : Z) (f : Task) :
  1 <= n <= INT_MAX ->
  0 < period ->
  0 <= t0 -> t0 + n * period < ULONG_MOD ->
  exists la',
    poll_at (every_ms t0 (S (Z.to_nat (n * period))))
            (mkSys (repeat_armed period f n t0) [])
    = Returned tt (mkSys (repeat_finished period la') (repeat f (Z.to_nat n))).
Proof.
  intros Hn Hp Ht0 Hub.
  apply counted_sequence_completes; try assumption.
  - apply every_ms_nondecreasing. lia.
  - apply every_ms_bounded. nia.
  - apply every_ms_crosses; [exact Hp|lia|]. nia.
Qed.

(** C1. [setInterval(period, 3, f)] on a new timer succeeds.  The first
    [tick()] after it invokes [f] at once, also when no time has passed.
    When the sketch polls at instants that do not go back and do not wrap
    around, and the polls cross at least three full periods, [f] has been
    invoked exactly three times when the polling ends; from then on further
    polls do nothing and [isRunning()] is [false] at every time. *)
Theorem counted_repeat_fires_three_times
    (d0 period t0 : Z) (f : Task) (ts : list Z) :
  0 <= t0 < ULONG_MOD ->
  nondecreasing_from t0 ts ->
  Forall (fun t => t < ULONG_MOD) ts ->
  (3 <= periods_crossed period t0 ts)%nat ->
  exists s1 s2,
    call (fun c => setInterval c period 3 (Some f)) (at_time t0) (fresh d0)
    = Returned true s1 /\
    (forall t1, t0 <= t1 < ULONG_MOD -> t1 - t0 < period ->
                exists s', poll_at [t1] s1 = Returned tt s' /\ fired s' = [f]) /\
    poll_at ts s1 = Returned tt s2 /\
    fired s2 = [f; f; f] /\
    invocations f s2 = 3%nat /\
    (forall cs, poll_each cs s2 = Returned tt s2) /\
    (forall c, call isRunning c s2 = Returned false s2).
Proof.
  intros Ht0 Hnd Hub Hk.
  destruct (counted_sequence_completes period 3 t0 f ts) as [la' Hrun];
    try assumption; try (unfold INT_MAX; lia).
  exists (mkSys (repeat_armed period f 3 t0) []).
  exists (mkSys (repeat_finished period la') [f; f; f]).
  split; [apply setInterval_on_fresh; exact Ht0|].
  split.
  { intros t1 Ht1 Hearly. eexists.
    rewrite poll_at_cons, tick_armed by (unfold INT_MIN, INT_MAX; lia).
    rewrite tick_cycling_early by lia. split; reflexivity. }
  split; [exact Hrun|].
  split; [reflexivity|].
  split; [apply (invocations_repeat f _ 3)|].
  split.
  - intros cs. apply poll_each_not_started; reflexivity.
  - intros c. apply not_started_not_running. reflexivity.
Qed.

Lemma counted_repeat_fires_three_times_witness :
  exists s1 s2,
    call (fun c => setInterval c 100 3 (Some 7%nat)) (at_time 0) (fresh 1000)
    = Returned true s1 /\
    (forall t1, 0 <= t1 < ULONG_MOD -> t1 - 0 < 100 ->
                exists s', poll_at [t1] s1 = Returned tt s' /\ fired s' = [7%nat]) /\
    poll_at [0; 60; 130; 200; 231; 340; 350] s1 = Returned tt s2 /\
    fired s2 = [7%nat; 7%nat; 7%nat] /\
    invocations 7%nat s2 = 3%nat /\
    (forall cs, poll_each cs s2 = Returned tt s2) /\
    (forall c, call isRunning c s2 = Returned false s2).
Proof.
  apply (counted_repeat_fires_three_times 1000 100 0 7%nat
           [0; 60; 130; 200; 231; 340; 350]).
  - unfold ULONG_MOD. lia.
  - cbn. lia.
  - unfold ULONG_MOD. repeat constructor; lia.
  - cbn. lia.
Defined.

(** * Further properties of the member functions *)

Ltac xstep :=
  cbv beta iota zeta delta
    [at_time fresh Timer_new oneshot_armed oneshot_idle repeat_armed
     repeat_cycling repeat_finished oneshot_rearmed oneshot_spent
     perform forget final getPreset
     call tick setInterval_forever setInterval setTimeout setTimeout_task
     reset stop start set isRunning isDone getEllapsed hasStarted millis
     invoke modify get bind ret
     with_repeatMode with_repetitionCount with_time with_last with_done
     with_started with_execOnce with_callback
     tm reads trace timer fired
     _repeatMode _repetitionCount _time _last _done _started _execOnce
     _callback andb orb negb].

Ltac xcase :=
  match goal with
  | |- context [if ?b then _ else _] => destruct b eqn:?; xstep
  end.

Lemma wrap_int_small (x : Z) : INT_MIN <= x <= INT_MAX -> wrap_int x = x.
Proof.
  unfold INT_MIN, INT_MAX, wrap_int. intros H.
  rewrite Z.mod_small by lia. lia.
Qed.

(** The unsigned subtraction gives the true difference of two instants less
    than 2^32 milliseconds apart, wherever the counter wrapped. *)
Lemma elapsed_modular (now last : Z) :
  0 <= now - last < ULONG_MOD ->
  wrapUL (wrapUL now - wrapUL last) = now - last.
Proof.
  intros H. unfold wrapUL.
  rewrite <- Zminus_mod. apply Z.mod_small. exact H.
Qed.

(** ** configure and read back *)

(** [set(d)] followed by [getPreset()] gives [d] back as long as [d] fits
    an [int]; neither call reads the time source or changes anything but
    [_time]. *)
Theorem set_getPreset_roundtrip (c1 c2 : Clock) (s : Sys) (d : Z) :
  0 <= d <= INT_MAX ->
  exists s',
    call (fun _ => set d) c1 s = Returned tt s' /\
    call (fun _ => getPreset) c2 s' = Returned d s' /\
    s' = mkSys (with_time d (timer s)) (fired s).
Proof.
  intros Hd. destruct s as [[rm rc ti la dn st ex cb] tr].
  eexists. split; [reflexivity|]. split; [|reflexivity].
  xstep. rewrite wrap_int_small by (unfold INT_MIN, INT_MAX in *; lia).
  reflexivity.
Qed.

Lemma set_getPreset_roundtrip_witness :
  exists s',
    call (fun _ => set 5000) (at_time 0) (fresh 1000) = Returned tt s' /\
    call (fun _ => getPreset) (at_time 0) s' = Returned 5000 s' /\
    s' = mkSys (with_time 5000 (timer (fresh 1000))) (fired (fresh 1000)).
Proof.
  apply (set_getPreset_roundtrip (at_time 0) (at_time 0) (fresh 1000) 5000).
  unfold INT_MAX. lia.
Defined.

(** ** Elapsed time *)

(** After [start()] at the instant [T], [getEllapsed()] at an instant [T']
    less than 2^32 milliseconds later returns [T' - T], and [isDone()]
    answers whether [T' - T] has reached [_time]: this holds also when the
    millisecond counter has wrapped around between the two instants.  [T] and
    [T'] are instants on the unbounded time line; [millis()] shows them
    modulo 2^32. *)
Theorem elapsed_correct_across_wraparound (T T' : Z) (s : Sys) :
  0 <= T' - T < ULONG_MOD ->
  exists s1 s2,
    call start (at_time T) s = Returned tt s1 /\
    call getEllapsed (at_time T') s1 = Returned (T' - T) s1 /\
    call isDone (at_time T') s1
    = Returned (_time (timer s) <=? T' - T) s2 /\
    call isRunning (at_time T') s1
    = Returned (negb (_time (timer s) <=? T' - T)) s2.
Proof.
  intros H. destruct s as [[rm rc ti la dn st ex cb] tr].
  exists (mkSys (mkTimer rm rc ti (wrapUL T) false true ex cb) tr).
  xstep. rewrite (elapsed_modular T' T H).
  destruct (ti <=? T' - T); eexists; repeat split.
Qed.

Lemma elapsed_correct_across_wraparound_witness :
  exists s1 s2,
    call start (at_time 4294967286) (fresh 30) = Returned tt s1 /\
    call getEllapsed (at_time 4294967346) s1
    = Returned (4294967346 - 4294967286) s1 /\
    call isDone (at_time 4294967346) s1
    = Returned (_time (timer (fresh 30)) <=? 4294967346 - 4294967286) s2 /\
    call isRunning (at_time 4294967346) s1
    = Returned (negb (_time (timer (fresh 30)) <=? 4294967346 - 4294967286)) s2.
Proof.
  apply (elapsed_correct_across_wraparound 4294967286 4294967346 (fresh 30)).
  unfold ULONG_MOD. lia.
Defined.

(** ** The queries *)

(** [isDone()] and [isRunning()] never change anything but [_done], and
    [_done] only from [false] to [true], when the timer is started and its
    time is up.  On a started timer they are each other's negation; on a
    timer that is not started both return [false] without reading the time
    source. *)
Theorem queries_latch_done_only (clk : Clock) (s : Sys) :
  exists (d : bool) (s' : Sys),
    call isDone clk s = Returned d s' /\
    call isRunning clk s = Returned (_started (timer s) && negb d) s' /\
    (d = true -> _started (timer s) = true /\
                 s' = mkSys (with_done true (timer s)) (fired s)) /\
    (d = false -> s' = s) /\
    (_started (timer s) = false -> d = false) /\
    d = done_at (clk 0%nat) (timer s).
Proof.
  destruct s as [[rm rc ti la dn st ex cb] tr].
  unfold done_at, elapsed_at. xstep.
  destruct st; xstep; [xcase|];
    do 2 eexists; repeat split; intros; try discriminate; reflexivity.
Qed.

(** ** reset and stop *)

(** [reset()] returns from every state and leaves the timer not started,
    with [_done] false (also when the time was up: [isDone()] is asked after
    [stop()] has cleared [_started]), the counter 0, no callback and [_last]
    a reading of this call; [_time], [_repeatMode] and [_execOnce] keep their
    values and no callback is invoked.  Right after it the elapsed time is
    0. *)
Theorem reset_postcondition (now : Z) (s : Sys) :
  call reset (at_time now) s
  = Returned tt
      (mkSys (mkTimer (_repeatMode (timer s)) 0 (_time (timer s))
                      (wrapUL now) false false (_execOnce (timer s)) None)
             (fired s)) /\
  call getEllapsed (at_time now) (final (call reset (at_time now) s))
  = Returned 0 (final (call reset (at_time now) s)).
Proof.
  destruct s as [[rm rc ti la dn st ex cb] tr].
  assert (H : call reset (at_time now)
                   (mkSys (mkTimer rm rc ti la dn st ex cb) tr)
              = Returned tt
                  (mkSys (mkTimer rm 0 ti (wrapUL now) false false ex None) tr)).
  { xstep. destruct st; xstep; repeat xcase; reflexivity. }
  split; [exact H|].
  rewrite H. xstep. rewrite elapsed_same_reading. reflexivity.
Qed.

(** [stop()] once the time is up: it returns the time since the start,
    latches [_done], keeps [_last] and leaves the timer not started. *)
Theorem stop_after_deadline_returns_elapsed (now : Z) (s : Sys) :
  _started (timer s) = true ->
  0 <= _last (timer s) -> _last (timer s) <= now -> now < ULONG_MOD ->
  _time (timer s) <= now - _last (timer s) ->
  call stop (at_time now) s
  = Returned (now - _last (timer s))
             (mkSys (with_started false (with_done true (timer s))) (fired s)).
Proof.
  destruct s as [[rm rc ti la dn st ex cb] tr]. cbn.
  intros -> H0 H1 H2 Hdue. xstep.
  repeat (rewrite (elapsed_exact now la H0 H1 H2);
          destruct (Z.leb_spec ti (now - la)); [|lia]; xstep).
  reflexivity.
Qed.

Lemma stop_after_deadline_returns_elapsed_witness :
  call stop (at_time 150) sample_running
  = Returned (150 - _last (timer sample_running))
             (mkSys (with_started false (with_done true (timer sample_running)))
                    (fired sample_running)).
Proof.
  apply (stop_after_deadline_returns_elapsed 150 sample_running);
    unfold ULONG_MOD; cbn; try reflexivity; lia.
Defined.

(** [stop()] on a timer that is not started returns the time since [_last]
    and changes nothing but [_done], which it clears. *)
Theorem stop_not_started_returns_elapsed (now : Z) (s : Sys) :
  _started (timer s) = false ->
  0 <= _last (timer s) -> _last (timer s) <= now -> now < ULONG_MOD ->
  call stop (at_time now) s
  = Returned (now - _last (timer s))
             (mkSys (with_done false (timer s)) (fired s)).
Proof.
  destruct s as [[rm rc ti la dn st ex cb] tr]. cbn.
  intros -> H0 H1 H2. xstep.
  rewrite (elapsed_exact now la H0 H1 H2). reflexivity.
Qed.

Lemma stop_not_started_returns_elapsed_witness :
  call stop (at_time 700) sample_completed
  = Returned (700 - _last (timer sample_completed))
             (mkSys (with_done false (timer sample_completed))
                    (fired sample_completed)).
Proof.
  apply (stop_not_started_returns_elapsed 700 sample_completed);
    unfold ULONG_MOD; cbn; try reflexivity; lia.
Defined.

(** ** Faults *)

(** The one call through a null pointer the class can make: a statement of
    the sketch faults exactly when it is [tick()] on a timer in repeating
    mode whose first-fire flag is clear and whose callback is [nullptr].
    Every other member function returns from every state. *)
Theorem faults_only_in_first_fire (op : Op) (clk : Clock) (s : Sys) :
  (exists s', perform op clk s = Crashed s') <->
  (op = OTick /\
   _repeatMode (timer s) = true /\
   _execOnce (timer s) = false /\
   _callback (timer s) = None).
Proof.
  destruct s as [[rm rc ti la dn st ex cb] tr]. cbn [timer _repeatMode
    _execOnce _callback].
  split.
  - intros [s' H]. revert H.
    destruct op; xstep;
      destruct st, rm, ex, cb as [f|]; xstep; repeat xcase;
      intros H; try discriminate H; repeat split.
  - intros (-> & -> & -> & ->).
    xstep. eexists. reflexivity.
Qed.

(** ** What one poll can do *)

(** A [tick()] that returns invokes nothing but the stored callback, at
    most twice, and twice only when it takes the first-fire branch; with no
    callback stored it invokes nothing.  It never changes [_time] or
    [_repeatMode], and it never clears [_execOnce]. *)
Theorem tick_invokes_stored_callback_only (clk : Clock) (s s' : Sys) :
  call tick clk s = Returned tt s' ->
  _time (timer s') = _time (timer s) /\
  _repeatMode (timer s') = _repeatMode (timer s) /\
  (_execOnce (timer s) = true -> _execOnce (timer s') = true) /\
  match _callback (timer s) with
  | None => fired s' = fired s
  | Some f =>
      exists k : nat,
        fired s' = fired s ++ repeat f k /\
        (k <= 2)%nat /\
        (_repeatMode (timer s) && negb (_execOnce (timer s)) = false ->
         (k <= 1)%nat)
  end.
Proof.
  destruct s as [[rm rc ti la dn st ex cb] tr].
  cbn [timer fired _time _repeatMode _execOnce _callback].
  destruct st, rm, ex, cb as [f|]; xstep; repeat xcase;
    intros H; try discriminate H; injection H as <-;
    cbn [timer fired _time _repeatMode _execOnce _callback];
    (split; [reflexivity|]); (split; [reflexivity|]);
    (split; [intros; first [reflexivity | assumption]|]);
    try reflexivity;
    first
      [ exists 0%nat; cbn [repeat]; rewrite ?app_nil_r;
        split; [reflexivity|]; split; [lia|intros; lia]
      | exists 1%nat; cbn [repeat];
        split; [reflexivity|]; split; [lia|intros; lia]
      | exists 2%nat; cbn [repeat]; rewrite <- ?app_assoc; cbn [app];
        split; [reflexivity|]; split; [lia|intros; discriminate] ].
Qed.

Lemma tick_invokes_stored_callback_only_witness :
  _time (timer (mkSys (repeat_cycling 100 7%nat 2 0) [7%nat]))
  = _time (timer sample_armed) /\
  _repeatMode (timer (mkSys (repeat_cycling 100 7%nat 2 0) [7%nat]))
  = _repeatMode (timer sample_armed) /\
  (_execOnce (timer sample_armed) = true ->
   _execOnce (timer (mkSys (repeat_cycling 100 7%nat 2 0) [7%nat])) = true) /\
  match _callback (timer sample_armed) with
  | None => fired (mkSys (repeat_cycling 100 7%nat 2 0) [7%nat])
            = fired sample_armed
  | Some f =>
      exists k : nat,
        fired (mkSys (repeat_cycling 100 7%nat 2 0) [7%nat])
        = fired sample_armed ++ repeat f k /\
        (k <= 2)%nat /\
        (_repeatMode (timer sample_armed)
         && negb (_execOnce (timer sample_armed)) = false ->
         (k <= 1)%nat)
  end.
Proof.
  apply (tick_invokes_stored_callback_only (at_time 0) sample_armed
           (mkSys (repeat_cycling 100 7%nat 2 0) [7%nat])).
  reflexivity.
Defined.

(** The first [tick()] of a repeating timer whose period is already over
    (always so with a period of 0) invokes the callback twice in that one
    call: once for the first fire, once for the period. *)
Theorem first_tick_fires_twice_when_period_is_over
    (period n la t : Z) (f : Task) (tr : list Task) :
  2 <= n <= INT_MAX ->
  0 <= la -> la <= t -> t < ULONG_MOD ->
  period <= t - la ->
  call tick (at_time t) (mkSys (repeat_armed period f n la) tr)
  = Returned tt (mkSys (repeat_cycling period f (n - 2) t) (tr ++ [f; f])).
Proof.
  intros Hn H0 H1 H2 Hdue. unfold INT_MAX in Hn.
  rewrite tick_armed by (unfold INT_MIN, INT_MAX; lia).
  rewrite tick_cycling_fire; try lia; [|unfold INT_MIN, INT_MAX; lia].
  rewrite <- app_assoc. cbn [app].
  replace (n - 1 - 1) with (n - 2) by lia. reflexivity.
Qed.

Lemma first_tick_fires_twice_when_period_is_over_witness :
  call tick (at_time 0) (mkSys (repeat_armed 0 7%nat 3 0) [])
  = Returned tt (mkSys (repeat_cycling 0 7%nat (3 - 2) 0) ([] ++ [7%nat; 7%nat])).
Proof.
  apply (first_tick_fires_twice_when_period_is_over 0 3 0 0 7%nat []);
    unfold INT_MAX, ULONG_MOD; lia.
Defined.

(** A sequence of one repetition: the first [tick()] invokes the callback;
    the poll that sees the period over ends the sequence without a further
    invocation (in the first [tick()] itself, if the period is over by
    then). *)
Theorem single_repetition_sequence
    (period la t : Z) (f : Task) (tr : list Task) :
  0 <= la -> la <= t -> t < ULONG_MOD ->
  call tick (at_time t) (mkSys (repeat_armed period f 1 la) tr)
  = Returned tt
      (if period <=? t - la
       then mkSys (repeat_finished period t) (tr ++ [f])
       else mkSys (repeat_cycling period f 0 la) (tr ++ [f])).
Proof.
  intros H0 H1 H2.
  rewrite tick_armed by (unfold INT_MIN, INT_MAX; lia).
  change (1 - 1) with 0.
  destruct (Z.leb_spec period (t - la)).
  - apply tick_cycling_last; assumption.
  - apply tick_cycling_early; assumption.
Qed.

Lemma single_repetition_sequence_witness :
  call tick (at_time 40) (mkSys (repeat_armed 100 7%nat 1 0) [])
  = Returned tt
      (if 100 <=? 40 - 0
       then mkSys (repeat_finished 100 40) ([] ++ [7%nat])
       else mkSys (repeat_cycling 100 7%nat 0 0) ([] ++ [7%nat])).
Proof.
  apply (single_repetition_sequence 100 0 40 7%nat []);
    unfold ULONG_MOD; lia.
Defined.

(** ** Sequences that do not end, and the exact count of those that do *)

(** With a counter below zero the callback is invoked at every period
    crossed and the counter keeps going down; the sequence does not end as
    long as the counter stays above [INT_MIN]. *)
Lemma poll_cycling_unbounded (period : Z) (f : Task) (ts : list Z) :
  forall (c la lo : Z) (tr : list Task),
    c < 0 ->
    INT_MIN < c - Z.of_nat (periods_crossed period la ts) ->
    0 <= la -> la <= lo ->
    nondecreasing_from lo ts ->
    Forall (fun t => t < ULONG_MOD) ts ->
    poll_at ts (mkSys (repeat_cycling period f c la) tr)
    = Returned tt
        (mkSys (repeat_cycling period f
                  (c - Z.of_nat (periods_crossed period la ts))
                  (restart_time period la ts))
               (tr ++ repeat f (periods_crossed period la ts))).
Proof.
  unfold INT_MIN.
  induction ts as [|t ts IH]; intros c la lo tr Hc Hmin Hla Hlo Hnd Hub.
  - cbn. rewrite Z.sub_0_r, app_nil_r. reflexivity.
  - destruct Hnd as [Hlt Hnd]. inversion Hub as [|? ? Ht Hub']; subst.
    rewrite poll_at_cons. cbn [periods_crossed restart_time] in *.
    destruct (Z.leb_spec period (t - la)) as [Hdue|Hearly].
    + rewrite tick_cycling_fire; try lia; [|unfold INT_MIN, INT_MAX; lia].
      rewrite (IH (c - 1) t t (tr ++ [f])); try lia; try assumption.
      rewrite repeat_snoc. do 3 f_equal. lia.
    + rewrite tick_cycling_early; try lia.
      apply (IH c la t tr); try lia; assumption.
Qed.

(** [setInterval(period, f)] arms a sequence with the counter -1, and so
    does any [times <= 0]: polled at least once, the callback has been
    invoked once at the first poll and once more for every period crossed,
    and the timer is still started with the callback in place.  The counter
    must stay above [INT_MIN], which bounds the periods crossed. *)
Theorem nonpositive_count_repeats_without_end
    (d0 period n t0 t : Z) (f : Task) (ts : list Z) :
  n <= 0 ->
  INT_MIN < n - 1 - Z.of_nat (periods_crossed period t0 (t :: ts)) ->
  0 <= t0 < ULONG_MOD ->
  nondecreasing_from t0 (t :: ts) ->
  Forall (fun t' => t' < ULONG_MOD) (t :: ts) ->
  exists s1 s2,
    call (fun c => setInterval c period n (Some f)) (at_time t0) (fresh d0)
    = Returned true s1 /\
    (n = -1 ->
     call (fun c => setInterval_forever c period (Some f)) (at_time t0)
          (fresh d0) = Returned true s1) /\
    poll_at (t :: ts) s1 = Returned tt s2 /\
    fired s2 = repeat f (S (periods_crossed period t0 (t :: ts))) /\
    _started (timer s2) = true /\
    _callback (timer s2) = Some f /\
    _repetitionCount (timer s2)
    = n - 1 - Z.of_nat (periods_crossed period t0 (t :: ts)).
Proof.
  intros Hn Hmin Ht0 Hnd Hub.
  exists (mkSys (repeat_armed period f n t0) []).
  eexists.
  split; [apply setInterval_on_fresh; exact Ht0|].
  split.
  { intros ->. unfold setInterval_forever.
    apply setInterval_on_fresh; exact Ht0. }
  split.
  { rewrite poll_at_cons, tick_armed, <- poll_at_cons
      by (unfold INT_MIN, INT_MAX in *; lia).
    apply (poll_cycling_unbounded period f (t :: ts) (n - 1) t0 t0);
      try lia; assumption. }
  cbn [fired timer app]. repeat split.
Qed.

Lemma nonpositive_count_repeats_without_end_witness :
  exists s1 s2,
    call (fun c => setInterval c 100 (-1) (Some 7%nat)) (at_time 0) (fresh 1000)
    = Returned true s1 /\
    (-1 = -1 ->
     call (fun c => setInterval_forever c 100 (Some 7%nat)) (at_time 0)
          (fresh 1000) = Returned true s1) /\
    poll_at (0 :: [100; 150; 200; 300; 400]) s1 = Returned tt s2 /\
    fired s2
    = repeat 7%nat (S (periods_crossed 100 0 (0 :: [100; 150; 200; 300; 400]))) /\
    _started (timer s2) = true /\
    _callback (timer s2) = Some 7%nat /\
    _repetitionCount (timer s2)
    = -1 - 1 - Z.of_nat (periods_crossed 100 0 (0 :: [100; 150; 200; 300; 400])).
Proof.
  apply (nonpositive_count_repeats_without_end 1000 100 (-1) 0 0 7%nat
           [100; 150; 200; 300; 400]).
  - lia.
  - unfold INT_MIN. cbn. lia.
  - unfold ULONG_MOD. lia.
  - cbn. lia.
  - unfold ULONG_MOD. repeat constructor; lia.
Defined.

(** The exact count of a counted sequence: polled at least once, a sequence
    of [n >= 1] repetitions has invoked the callback [min n (1 + periods
    crossed)] times, never more than [n]; the timer is still started exactly
    as long as fewer than [n] periods are crossed. *)
Theorem counted_sequence_exact_count
    (d0 period n t0 t : Z) (f : Task) (ts : list Z) :
  1 <= n <= INT_MAX ->
  0 <= t0 < ULONG_MOD ->
  nondecreasing_from t0 (t :: ts) ->
  Forall (fun t' => t' < ULONG_MOD) (t :: ts) ->
  exists s1 s2,
    call (fun c => setInterval c period n (Some f)) (at_time t0) (fresh d0)
    = Returned true s1 /\
    poll_at (t :: ts) s1 = Returned tt s2 /\
    fired s2
    = repeat f (Nat.min (Z.to_nat n)
                        (S (periods_crossed period t0 (t :: ts)))) /\
    _started (timer s2)
    = (periods_crossed period t0 (t :: ts) <? Z.to_nat n)%nat.
Proof.
  intros Hn Ht0 Hnd Hub.
  exists (mkSys (repeat_armed period f n t0) []).
  destruct (Nat.ltb_spec (periods_crossed period t0 (t :: ts)) (Z.to_nat n))
    as [Hlt|Hge].
  - eexists. split; [apply setInterval_on_fresh; exact Ht0|].
    split.
    { rewrite poll_at_cons, tick_armed, <- poll_at_cons
        by (unfold INT_MIN, INT_MAX in *; lia).
      apply (poll_cycling_in_progress period f (t :: ts) (n - 1) t0 t0);
        try lia; assumption. }
    cbn [fired timer app _started]. split; [|reflexivity].
    rewrite Nat.min_r by lia. reflexivity.
  - destruct (counted_sequence_completes period n t0 f (t :: ts))
      as [la' Hrun]; try assumption; try lia.
    eexists. split; [apply setInterval_on_fresh; exact Ht0|].
    split; [exact Hrun|].
    cbn [fired timer _started]. split; [|reflexivity].
    rewrite Nat.min_l by lia. reflexivity.
Qed.

Lemma counted_sequence_exact_count_witness :
  exists s1 s2,
    call (fun c => setInterval c 100 5 (Some 7%nat)) (at_time 0) (fresh 1000)
    = Returned true s1 /\
    poll_at (0 :: [100; 150; 200]) s1 = Returned tt s2 /\
    fired s2
    = repeat 7%nat (Nat.min (Z.to_nat 5)
                            (S (periods_crossed 100 0 (0 :: [100; 150; 200])))) /\
    _started (timer s2)
    = (periods_crossed 100 0 (0 :: [100; 150; 200])%Z <? Z.to_nat 5)%nat.
Proof.
  apply (counted_sequence_exact_count 1000 100 5 0 0 7%nat [100; 150; 200]).
  - unfold INT_MAX. lia.
  - unfold ULONG_MOD. lia.
  - cbn. lia.
  - unfold ULONG_MOD. repeat constructor; lia.
Defined.

(** Polled in every millisecond from the scheduling instant on, a sequence
    of [n >= 1] repetitions with a period of [period > 0] milliseconds is
    over after [n * period] milliseconds, with [n] invocations. *)
Theorem counted_sequence_every_ms (d0 period n t0 : Z) (f : Task) :
  1 <= n <= INT_MAX ->
  0 < period ->
  0 <= t0 -> t0 + n * period < ULONG_MOD ->
  exists s1 s2,
    call (fun c => setInterval c period n (Some f)) (at_time t0) (fresh d0)
    = Returned true s1 /\
    poll_at (every_ms t0 (S (Z.to_nat (n * period)))) s1 = Returned tt s2 /\
    fired s2 = repeat f (Z.to_nat n) /\
    _started (timer s2) = false /\
    _callback (timer s2) = None.
Proof.
  intros Hn Hp Ht0 Hub.
  destruct (counted_sequence_polled_every_ms d0 period n t0 f Hn Hp Ht0 Hub)
    as [la' Hrun].
  do 2 eexists.
  split; [apply setInterval_on_fresh; nia|].
  split; [exact Hrun|].
  repeat split.
Qed.

Lemma counted_sequence_every_ms_witness :
  exists s1 s2,
    call (fun c => setInterval c 4 3 (Some 7%nat)) (at_time 10) (fresh 1000)
    = Returned true s1 /\
    poll_at (every_ms 10 (S (Z.to_nat (3 * 4)))) s1 = Returned tt s2 /\
    fired s2 = repeat 7%nat (Z.to_nat 3) /\
    _started (timer s2) = false /\
    _callback (timer s2) = None.
Proof.
  apply (counted_sequence_every_ms 1000 4 3 10 7%nat);
    unfold INT_MAX, ULONG_MOD; lia.
Defined.

(** ** Whole sketches *)

Lemma perform_keeps_execOnce (op : Op) (clk : Clock) (s : Sys) :
  _execOnce (timer s) = true ->
  exists s', perform op clk s = Returned tt s' /\ _execOnce (timer s') = true.
Proof.
  destruct s as [[rm rc ti la dn st ex cb] tr]. cbn. intros ->.
  destruct op; xstep;
    destruct st, rm, cb as [f|]; xstep; repeat xcase;
    eexists; split; reflexivity.
Qed.

(** Once [_execOnce] is set (by the first [tick()] of a repeating timer) no
    sequence of calls clears it: every such sequence runs to its end without
    a fault, and a [setInterval] after it is refused, whatever the time and
    the arguments. *)
Theorem execOnce_never_cleared (ops : list (Op * Clock)) (s : Sys) :
  _execOnce (timer s) = true ->
  exists s',
    perform_all ops s = Returned tt s' /\
    _execOnce (timer s') = true /\
    (forall clk period times task,
        exists s'',
          call (fun c => setInterval c period times task) clk s'
          = Returned false s'').
Proof.
  revert s. induction ops as [|[op clk] ops IH]; intros s Hex.
  - exists s. split; [reflexivity|]. split; [exact Hex|].
    intros clk period times task.
    destruct (setInterval_refused_when_execOnce clk s period times task Hex)
      as (s'' & H & _).
    exists s''. exact H.
  - cbn [perform_all].
    destruct (perform_keeps_execOnce op clk s Hex) as (s1 & -> & Hex1).
    apply IH. exact Hex1.
Qed.

Lemma execOnce_never_cleared_witness :
  exists s',
    perform_all [(OStop, at_time 350); (OReset, at_time 360);
                 (OSetTimeout 10 (Some 8%nat), at_time 370);
                 (OTick, at_time 380); (OStart, at_time 390)]
                sample_completed
    = Returned tt s' /\
    _execOnce (timer s') = true /\
    (forall clk period times task,
        exists s'',
          call (fun c => setInterval c period times task) clk s'
          = Returned false s'').
Proof.
  apply (execOnce_never_cleared
           [(OStop, at_time 350); (OReset, at_time 360);
            (OSetTimeout 10 (Some 8%nat), at_time 370);
            (OTick, at_time 380); (OStart, at_time 390)]
           sample_completed).
  reflexivity.
Defined.

Lemma perform_invokes_stored (op : Op) (clk : Clock) (s : Sys) :
  (forall x, In x (fired (final (perform op clk s))) ->
             In x (fired s) \/ _callback (timer s) = Some x) /\
  (forall x, _callback (timer (final (perform op clk s))) = Some x ->
             _callback (timer s) = Some x \/ task_of op = Some x).
Proof.
  destruct s as [[rm rc ti la dn st ex cb] tr].
  destruct op; cbn [task_of]; xstep;
    destruct st, rm, ex, cb as [f|]; xstep; repeat xcase;
    (split; intros x Hx;
     [ rewrite ?in_app_iff in Hx; cbn [In] in Hx;
       intuition (subst; auto)
     | first [ left; exact Hx | right; exact Hx | discriminate Hx ] ]).
Qed.

(** Nothing is ever invoked that the sketch did not hand to the timer:
    whatever the calls and the readings of the time source, every function
    invoked by the end of the run was invoked before it, was the stored
    callback at its start, or is the [task] argument of one of its
    [setTimeout] or [setInterval] calls. *)
Theorem only_registered_callbacks_run (ops : list (Op * Clock)) :
  forall (s : Sys) (x : Task),
    In x (fired (final (perform_all ops s))) ->
    In x (fired s) \/ _callback (timer s) = Some x \/ In x (tasks_of ops).
Proof.
  induction ops as [|[op clk] ops IH]; intros s x Hx.
  - left. exact Hx.
  - cbn [perform_all tasks_of] in *.
    destruct (perform_invokes_stored op clk s) as [Hfired Hcb].
    destruct (perform op clk s) as [[] s1|s1]; cbn [final] in *.
    + destruct (IH s1 x Hx) as [H|[H|H]].
      * destruct (Hfired x H) as [H'|H']; auto.
      * destruct (Hcb x H) as [H'|H']; auto.
        right. right. rewrite H'. left. reflexivity.
      * right. right. destruct (task_of op); [right|]; exact H.
    + destruct (Hfired x Hx) as [H'|H']; auto.
Qed.

Lemma only_registered_callbacks_run_witness :
  In 7%nat (fired sample_armed) \/
  _callback (timer sample_armed) = Some 7%nat \/
  In 7%nat (tasks_of [(OTick, at_time 0); (OTick, at_time 100)]).
Proof.
  apply (only_registered_callbacks_run
           [(OTick, at_time 0); (OTick, at_time 100)] sample_armed 7%nat).
  vm_compute. left. reflexivity.
Defined.

(** ** Stopping and starting again *)

(** [stop()] keeps the schedule: the callback, the mode, the counter and
    the duration survive it, so that [start()] after [stop()] gives the state
    [start()] alone would have given, with a full period ahead.  In between,
    the polls do nothing, unless the first fire of a repeating timer is still
    due. *)
Theorem stop_then_start_restarts_period (c1 : Clock) (t : Z) (s : Sys) :
  exists el s1,
    call stop c1 s = Returned el s1 /\
    _callback (timer s1) = _callback (timer s) /\
    _repeatMode (timer s1) = _repeatMode (timer s) /\
    _repetitionCount (timer s1) = _repetitionCount (timer s) /\
    _time (timer s1) = _time (timer s) /\
    call start (at_time t) s1 = call start (at_time t) s /\
    (_repeatMode (timer s) && negb (_execOnce (timer s)) = false ->
     forall cs, poll_each cs s1 = Returned tt s1).
Proof.
  destruct s as [[rm rc ti la dn st ex cb] tr].
  destruct (stop_frame c1 (mkEnv (mkTimer rm rc ti la dn st ex cb) 0%nat tr))
    as (el & la' & dn' & n & Hstop).
  unfold call at 1. cbn [timer fired]. rewrite Hstop.
  cbn [tm trace _repeatMode _repetitionCount _time _execOnce _callback].
  do 2 eexists. split; [reflexivity|].
  cbn [timer _repeatMode _repetitionCount _time _execOnce _callback].
  repeat (split; [reflexivity|]).
  intros Hg cs. apply poll_each_not_started; [reflexivity|exact Hg].
Qed.

(** ** When the schedule calls are accepted *)

(** [setInterval] is accepted exactly when the timer is not running at the
    first reading of the call and [_execOnce] is clear.  Accepted, it drops
    whatever callback and counter were stored before; refused, it changes
    nothing but [_done], which it may latch. *)
Theorem setInterval_accepted_iff
    (clk : Clock) (s : Sys) (period times : Z) (task : FnPtr) :
  ((exists s', call (fun c => setInterval c period times task) clk s
               = Returned true s') <->
   (running_at (clk 0%nat) (timer s) = false /\ _execOnce (timer s) = false)) /\
  (forall s', call (fun c => setInterval c period times task) clk s
              = Returned true s' ->
              exists la,
                s' = mkSys (mkTimer true times period la false true false task)
                           (fired s)) /\
  (forall s', call (fun c => setInterval c period times task) clk s
              = Returned false s' ->
              s' = s \/ s' = mkSys (with_done true (timer s)) (fired s)).
Proof.
  split; [split|split].
  - intros [s' H]. apply setInterval_success in H as (H1 & H2 & _). auto.
  - destruct s as [[rm rc ti la dn st ex cb] tr].
    unfold running_at, elapsed_at.
    cbn [timer _started _execOnce _time _last]. intros [Hrun ->].
    destruct st; xstep; cbn [andb negb] in Hrun;
      [apply negb_false_iff in Hrun; rewrite Hrun; xstep|];
      repeat xcase; eexists; reflexivity.
  - intros s' H. apply setInterval_success in H as (_ & _ & la & ->).
    exists la. reflexivity.
  - destruct s as [[rm rc ti la dn st ex cb] tr].
    destruct st, ex; xstep; repeat xcase; intros s' H;
      try discriminate H; injection H as <-;
      first [left; reflexivity | right; reflexivity].
Qed.

(** The two-argument [setTimeout] tests [isRunning()] twice, before and
    after it stores the new delay.  On a started timer whose old duration is
    over but whose new delay is not, the first test passes and the second
    refuses: the call returns [false], yet [_time] now holds the new delay
    (and [_done] is latched); the callback that was stored stays. *)
Theorem setTimeout_refused_late_overwrites_time
    (now delay' : Z) (task : FnPtr) (s : Sys) :
  _started (timer s) = true ->
  0 <= _last (timer s) -> _last (timer s) <= now -> now < ULONG_MOD ->
  _time (timer s) <= now - _last (timer s) ->
  now - _last (timer s) < delay' ->
  call (fun c => setTimeout c delay' task) (at_time now) s
  = Returned false
      (mkSys (with_time delay' (with_done true (timer s))) (fired s)).
Proof.
  destruct s as [[rm rc ti la dn st ex cb] tr]. cbn.
  intros -> H0 H01 H1 Hdue Hshort. xstep.
  rewrite (elapsed_exact now la H0 H01 H1).
  destruct (Z.leb_spec ti (now - la)); [|lia].
  xstep. rewrite (elapsed_exact now la H0 H01 H1).
  destruct (Z.leb_spec delay' (now - la)); [lia|].
  reflexivity.
Qed.

Lemma setTimeout_refused_late_overwrites_time_witness :
  call (fun c => setTimeout c 500 (Some 8%nat)) (at_time 150) sample_running
  = Returned false
      (mkSys (with_time 500 (with_done true (timer sample_running)))
             (fired sample_running)).
Proof.
  apply (setTimeout_refused_late_overwrites_time 150 500 (Some 8%nat)
           sample_running);
    unfold ULONG_MOD; cbn; try reflexivity; lia.
Defined.

(** ** One-shots on a timer that was used before *)

Lemma setTimeout_not_started (delay t0 : Z) (f : Task) (s : Sys) :
  _started (timer s) = false ->
  0 <= t0 < ULONG_MOD ->
  call (fun c => setTimeout c delay (Some f)) (at_time t0) s
  = Returned true
      (mkSys (oneshot_rearmed (_repetitionCount (timer s))
                (_execOnce (timer s)) delay f t0)
             (fired s)).
Proof.
  destruct s as [[rm rc ti la dn st ex cb] tr]. cbn. intros -> H.
  xstep. rewrite (wrapUL_small t0 H). reflexivity.
Qed.

Lemma tick_rearmed_early
      (rc : Z) (ex : bool) (delay la t : Z) (f : Task) (tr : list Task) :
  0 <= la -> la <= t -> t < ULONG_MOD -> t - la < delay ->
  call tick (at_time t) (mkSys (oneshot_rearmed rc ex delay f la) tr)
  = Returned tt (mkSys (oneshot_rearmed rc ex delay f la) tr).
Proof.
  intros H0 H1 H2 H3. xstep.
  rewrite (elapsed_exact t la H0 H1 H2).
  destruct (Z.leb_spec delay (t - la)); [lia|reflexivity].
Qed.

Lemma tick_rearmed_due
      (rc : Z) (ex : bool) (delay la t : Z) (f : Task) (tr : list Task) :
  0 <= la -> la <= t -> t < ULONG_MOD -> delay <= t - la ->
  call tick (at_time t) (mkSys (oneshot_rearmed rc ex delay f la) tr)
  = Returned tt (mkSys (oneshot_spent ex delay t) (tr ++ [f])).
Proof.
  intros H0 H1 H2 H3. xstep.
  repeat (rewrite (elapsed_exact t la H0 H1 H2);
          destruct (Z.leb_spec delay (t - la)); [|lia]; xstep).
  rewrite wrapUL_small by lia. reflexivity.
Qed.

Lemma poll_rearmed (rc : Z) (ex : bool) (delay la : Z) (f : Task)
      (ts : list Z) (tr : list Task) :
  0 <= la ->
  Forall (fun t => la <= t < ULONG_MOD) ts ->
  Exists (fun t => delay <= t - la) ts ->
  exists la',
    poll_at ts (mkSys (oneshot_rearmed rc ex delay f la) tr)
    = Returned tt (mkSys (oneshot_spent ex delay la') (tr ++ [f])).
Proof.
  intros H0 Hts. induction Hts as [|t ts [Ht1 Ht2] Hts IH]; intros Hex.
  - inversion Hex.
  - rewrite poll_at_cons.
    destruct (Z.lt_ge_cases (t - la) delay) as [Hearly|Hdue].
    + rewrite (tick_rearmed_early rc ex delay la t f tr H0 Ht1 Ht2 Hearly).
      apply IH. inversion Hex; subst; [lia|assumption].
    + rewrite (tick_rearmed_due rc ex delay la t f tr H0 Ht1 Ht2 Hdue).
      exists t. unfold poll_at. apply poll_each_not_started; reflexivity.
Qed.

(** On every timer that is not started (new, stopped, reset, or after a
    completed one-shot or repeating sequence) [setTimeout(delay, f)] is
    accepted; polled past the delay, it invokes [f] exactly once more and
    leaves the timer not started with no callback, where further polls do
    nothing. *)
Theorem oneshot_on_any_idle_timer
    (delay t0 : Z) (f : Task) (ts : list Z) (s : Sys) :
  _started (timer s) = false ->
  0 <= t0 < ULONG_MOD ->
  Forall (fun t => t0 <= t < ULONG_MOD) ts ->
  Exists (fun t => delay <= t - t0) ts ->
  exists s1 s2,
    call (fun c => setTimeout c delay (Some f)) (at_time t0) s
    = Returned true s1 /\
    poll_at ts s1 = Returned tt s2 /\
    fired s2 = fired s ++ [f] /\
    _started (timer s2) = false /\
    _callback (timer s2) = None /\
    (forall cs, poll_each cs s2 = Returned tt s2).
Proof.
  intros Hst Ht0 Hts Hex.
  destruct (poll_rearmed (_repetitionCount (timer s)) (_execOnce (timer s))
              delay t0 f ts (fired s) (proj1 Ht0) Hts Hex) as [la' Hrun].
  do 2 eexists.
  split; [apply setTimeout_not_started; assumption|].
  split; [exact Hrun|].
  repeat (split; [reflexivity|]).
  intros cs. apply poll_each_not_started; reflexivity.
Qed.

Lemma oneshot_on_any_idle_timer_witness :
  exists s1 s2,
    call (fun c => setTimeout c 50 (Some 8%nat)) (at_time 400) sample_completed
    = Returned true s1 /\
    poll_at [410; 449; 450; 500] s1 = Returned tt s2 /\
    fired s2 = fired sample_completed ++ [8%nat] /\
    _started (timer s2) = false /\
    _callback (timer s2) = None /\
    (forall cs, poll_each cs s2 = Returned tt s2).
Proof.
  apply (oneshot_on_any_idle_timer 50 400 8%nat [410; 449; 450; 500]
           sample_completed).
  - reflexivity.
  - unfold ULONG_MOD. lia.
  - unfold ULONG_MOD. repeat constructor; lia.
  - do 2 apply Exists_cons_tl. apply Exists_cons_hd. lia.
Defined.
